(** * DreamHost DNS record client: a shallow embedding and its properties

    The development follows [internal/dreamhost/dreamhost.go].  Strings are
    Go strings, that is sequences of bytes ([string] over [ascii]); a Go
    [map[string][]string] is a [gmap string (list string)]; a pointer that may
    be [nil] is an [option]; a Go function returning [(T, error)] returns a
    pair of options or a sum.

    The file has three layers:
    - the pieces of the Go standard library whose exact behaviour the client's
      properties depend on ([strings], [fmt], [errors], the query half of
      [net/url]) are modelled concretely;
    - the pieces that are only called ([url.Parse], [URL.String],
      [http.NewRequest], [json.Unmarshal], the HTTP transport) are fields of
      an interface [GoLibrary], over which every theorem is quantified;
    - [Module GoRef] gives a reference instance of that interface, used to
      run the client on concrete inputs. *)

From Stdlib Require Import String Ascii ZArith NArith List Bool Lia.
From stdpp Require Import gmap strings list fin_maps sorting.

Local Open Scope string_scope.
Local Open Scope list_scope.

(** ** Bytes *)

Definition byte_in (lo hi c : ascii) : bool :=
  (N_of_ascii lo <=? N_of_ascii c)%N && (N_of_ascii c <=? N_of_ascii hi)%N.

(** The double quote, written by its code so that no literal contains it. *)
Definition dquote : ascii := "034"%char.

(** ** Package [strings] *)

Fixpoint strings_HasPrefix (s prefix : string) {struct prefix} : bool :=
  match prefix with
  | EmptyString => true
  | String p prefix' =>
      match s with
      | EmptyString => false
      | String c s' => Ascii.eqb c p && strings_HasPrefix s' prefix'
      end
  end.

Fixpoint string_drop (n : nat) (s : string) : string :=
  match n with
  | O => s
  | S n' => match s with EmptyString => EmptyString | String _ s' => string_drop n' s' end
  end.

Fixpoint string_take (n : nat) (s : string) : string :=
  match n with
  | O => EmptyString
  | S n' => match s with EmptyString => EmptyString | String c s' => String c (string_take n' s') end
  end.

(** [len(s) >= len(suffix) && s[len(s)-len(suffix):] == suffix] *)
Definition strings_HasSuffix (s suffix : string) : bool :=
  (String.length suffix <=? String.length s)%nat
  && String.eqb (string_drop (String.length s - String.length suffix) s) suffix.

(** [strings.Index(s, sep) >= 0], by scanning for the first position where
    [sep] is a prefix. *)
Fixpoint strings_Contains (s substr : string) : bool :=
  strings_HasPrefix s substr
  || match s with
     | EmptyString => false
     | String _ s' => strings_Contains s' substr
     end.

(** [strings.Cut]: the text before and after the first occurrence of [sep],
    and whether [sep] was found. *)
Fixpoint strings_Cut (s sep : string) : string * string * bool :=
  if strings_HasPrefix s sep then (EmptyString, string_drop (String.length sep) s, true)
  else match s with
       | EmptyString => (EmptyString, EmptyString, false)
       | String c s' =>
           let '(before, after, found) := strings_Cut s' sep in
           (String c before, after, found)
       end.

Fixpoint strings_ContainsByte (s : string) (b : ascii) : bool :=
  match s with
  | EmptyString => false
  | String c s' => Ascii.eqb c b || strings_ContainsByte s' b
  end.

Fixpoint strings_Join (elems : list string) (sep : string) : string :=
  match elems with
  | [] => EmptyString
  | [e] => e
  | e :: rest => e +:+ sep +:+ strings_Join rest sep
  end.

(** ** Package [errors] and [fmt]

    An [error] is what its [Error()] method prints, together with the error
    it wraps, if any ([errors.Unwrap]). *)

Inductive error : Type :=
| errorString (s : string)                 (* errors.New, fmt.Errorf without %w *)
| wrapError (msg : string) (err : error).  (* fmt.Errorf with %w *)

Definition Error (e : error) : string :=
  match e with
  | errorString s => s
  | wrapError msg _ => msg
  end.

Definition errors_New (text : string) : error := errorString text.

Definition errors_Unwrap (e : error) : option error :=
  match e with
  | errorString _ => None
  | wrapError _ err => Some err
  end.

(** [fmt.Errorf(prefix + "%w", err)] *)
Definition fmt_Errorf_w (prefix : string) (err : error) : error :=
  wrapError (prefix +:+ Error err) err.

(** [%v] of an [int]: decimal digits, with a minus sign when negative. *)
Definition digit_char (n : N) : ascii := ascii_of_N (48 + n).

Fixpoint fmt_digits (fuel : nat) (n : N) (acc : string) : string :=
  match fuel with
  | O => acc
  | S fuel' =>
      let acc' := String (digit_char (n mod 10)) acc in
      if (n / 10 =? 0)%N then acc' else fmt_digits fuel' (n / 10) acc'
  end.

Definition fmt_Sprint_int (z : Z) : string :=
  let n := Z.to_N (Z.abs z) in
  let ds := fmt_digits (S (N.to_nat (N.log2 n))) n EmptyString in
  if (z <? 0)%Z then String "-" ds else ds.

(** ** Package [net/url]: escaping *)

Inductive encoding : Type :=
| encodePath | encodePathSegment | encodeHost | encodeZone
| encodeUserPassword | encodeQueryComponent | encodeFragment.

Definition encoding_eqb (a b : encoding) : bool :=
  match a, b with
  | encodePath, encodePath | encodePathSegment, encodePathSegment
  | encodeHost, encodeHost | encodeZone, encodeZone
  | encodeUserPassword, encodeUserPassword
  | encodeQueryComponent, encodeQueryComponent
  | encodeFragment, encodeFragment => true
  | _, _ => false
  end.

Definition ishex (c : ascii) : bool :=
  byte_in "0" "9" c || byte_in "a" "f" c || byte_in "A" "F" c.

Definition unhex (c : ascii) : N :=
  if byte_in "0" "9" c then (N_of_ascii c - 48)%N
  else if byte_in "a" "f" c then (N_of_ascii c - 97 + 10)%N
  else if byte_in "A" "F" c then (N_of_ascii c - 65 + 10)%N
  else 0%N.

Definition upperhex (n : N) : ascii :=
  match String.get (N.to_nat n) "0123456789ABCDEF" with
  | Some c => c
  | None => "0"%char
  end.

(** [shouldEscape(c, mode)], case by case as in the library. *)
Definition shouldEscape (c : ascii) (mode : encoding) : bool :=
  if byte_in "a" "z" c || byte_in "A" "Z" c || byte_in "0" "9" c then false
  else if (encoding_eqb mode encodeHost || encoding_eqb mode encodeZone)
          && match c with
             | "!" | "$" | "&" | "'" | "(" | ")" | "*" | "+" | "," | ";" | "="
             | ":" | "[" | "]" | "<" | ">" | "034" => true
             | _ => false
             end%char
  then false
  else
    match c with
    | "-" | "_" | "." | "~" => false
    | "$" | "&" | "+" | "," | "/" | ":" | ";" | "=" | "?" | "@" =>
        match mode with
        | encodePath => Ascii.eqb c "?"
        | encodePathSegment =>
            Ascii.eqb c "/" || Ascii.eqb c ";" || Ascii.eqb c "," || Ascii.eqb c "?"
        | encodeUserPassword =>
            Ascii.eqb c "@" || Ascii.eqb c "/" || Ascii.eqb c "?" || Ascii.eqb c ":"
        | encodeQueryComponent => true
        | encodeFragment => false
        | encodeHost | encodeZone => true
        end
    | "!" | "(" | ")" | "*" => negb (encoding_eqb mode encodeFragment)
    | _ => true
    end%char.

(** [escape(s, mode)].  The library first counts the bytes to rewrite, to
    size its buffer and to return [s] itself when there are none; the bytes
    it writes are those of this single pass. *)
Fixpoint escape (s : string) (mode : encoding) : string :=
  match s with
  | EmptyString => EmptyString
  | String c s' =>
      if Ascii.eqb c " " && encoding_eqb mode encodeQueryComponent then
        String "+" (escape s' mode)
      else if shouldEscape c mode then
        String "%" (String (upperhex (N.shiftr (N_of_ascii c) 4))
                   (String (upperhex (N.land (N_of_ascii c) 15)) (escape s' mode)))
      else String c (escape s' mode)
  end.

(** [strconv.Quote] on text that needs no escaping of its own. *)
Definition strconv_Quote (s : string) : string :=
  String dquote (s +:+ String dquote EmptyString).

Definition EscapeError (s : string) : error :=
  errorString ("invalid URL escape " +:+ strconv_Quote s).

Definition InvalidHostError (s : string) : error :=
  errorString ("invalid character " +:+ strconv_Quote s +:+ " in host name").

(** First loop of [unescape]: check that every [%] starts a well-formed
    escape, count them and note a [+]. *)
Fixpoint unescape_scan (s : string) (mode : encoding) (n : nat) (hasPlus : bool)
  : error + (nat * bool) :=
  match s with
  | EmptyString => inr (n, hasPlus)
  | String c s1 =>
      if Ascii.eqb c "%" then
        match s1 with
        | String a (String b s3) =>
            if negb (ishex a) || negb (ishex b) then inl (EscapeError (string_take 3 s))
            else if encoding_eqb mode encodeHost && (unhex a <? 8)%N
                    && negb (String.eqb (string_take 3 s) "%25")
            then inl (EscapeError (string_take 3 s))
            else if encoding_eqb mode encodeZone then
              let v := N.lor (N.shiftl (unhex a) 4) (unhex b) in
              if negb (String.eqb (string_take 3 s) "%25")
                 && negb (v =? 32)%N
                 && shouldEscape (ascii_of_N v) encodeHost
              then inl (EscapeError (string_take 3 s))
              else unescape_scan s3 mode (S n) hasPlus
            else unescape_scan s3 mode (S n) hasPlus
        | _ => inl (EscapeError (string_take 3 s))
        end
      else if Ascii.eqb c "+" then
        unescape_scan s1 mode n (encoding_eqb mode encodeQueryComponent)
      else if (encoding_eqb mode encodeHost || encoding_eqb mode encodeZone)
              && (N_of_ascii c <? 128)%N && shouldEscape c encodeHost
      then inl (InvalidHostError (String c EmptyString))
      else unescape_scan s1 mode n hasPlus
  end.

(** Second loop of [unescape]: decode. *)
Fixpoint unescape_decode (s : string) (mode : encoding) : string :=
  match s with
  | EmptyString => EmptyString
  | String c s1 =>
      if Ascii.eqb c "%" then
        match s1 with
        | String a (String b s3) =>
            String (ascii_of_N (N.lor (N.shiftl (unhex a) 4) (unhex b)))
                   (unescape_decode s3 mode)
        | _ => EmptyString
        end
      else if Ascii.eqb c "+" then
        String (if encoding_eqb mode encodeQueryComponent then " " else "+")%char
               (unescape_decode s1 mode)
      else String c (unescape_decode s1 mode)
  end.

Definition unescape (s : string) (mode : encoding) : string + error :=
  match unescape_scan s mode 0 false with
  | inl err => inr err
  | inr (n, hasPlus) =>
      if (n =? 0)%nat && negb hasPlus then inl s
      else inl (unescape_decode s mode)
  end.

Definition QueryEscape (s : string) : string := escape s encodeQueryComponent.
Definition QueryUnescape (s : string) : string + error := unescape s encodeQueryComponent.

(** ** Package [net/url]: query values

    [url.Values] is [map[string][]string]. *)

Abbreviation Values := (gmap string (list string)).

(** [v[key] = append(v[key], value)] *)
Definition Values_Add (v : Values) (key value : string) : Values :=
  <[key := default [] (v !! key) ++ [value]]> v.

Definition Values_Get (v : Values) (key : string) : string :=
  match v !! key with
  | Some (x :: _) => x
  | _ => EmptyString
  end.

Definition Values_Has (v : Values) (key : string) : bool :=
  match v !! key with
  | Some _ => true
  | None => false
  end.

(** The loop of [parseQuery].  Every turn cuts a non-empty piece off the
    front of [query], so [String.length query] turns are enough; [fuel]
    bounds them.  [err] is the first error met: a bad piece is skipped and
    the loop goes on. *)
Fixpoint parseQuery (fuel : nat) (m : Values) (err : option error) (query : string)
  : Values * option error :=
  match fuel with
  | O => (m, err)
  | S fuel' =>
      if String.eqb query "" then (m, err)
      else
        let '(key, query', _) := strings_Cut query "&" in
        if strings_Contains key ";" then
          parseQuery fuel' m (Some (errorString "invalid semicolon separator in query")) query'
        else if String.eqb key "" then parseQuery fuel' m err query'
        else
          let '(key, value, _) := strings_Cut key "=" in
          match QueryUnescape key with
          | inr err1 =>
              parseQuery fuel' m (match err with None => Some err1 | Some _ => err end) query'
          | inl key =>
              match QueryUnescape value with
              | inr err1 =>
                  parseQuery fuel' m (match err with None => Some err1 | Some _ => err end) query'
              | inl value => parseQuery fuel' (Values_Add m key value) err query'
              end
          end
  end.

Definition ParseQuery (query : string) : Values * option error :=
  parseQuery (String.length query) ∅ None query.

(** [Values.Encode]: keys in sorted order, each value of a key in turn, an
    ampersand before every pair but the first ([buf.Len() > 0]). *)
Definition Encode_value (keyEscaped : string) (buf : string) (v : string) : string :=
  (if String.eqb buf "" then buf else buf +:+ "&") +:+ keyEscaped +:+ "=" +:+ QueryEscape v.

Definition Encode_key (v : Values) (buf : string) (k : string) : string :=
  fold_left (Encode_value (QueryEscape k)) (default [] (v !! k)) buf.

Definition sorted_keys (v : Values) : list string :=
  merge_sort String.le ((map_to_list v).*1).

Definition Values_Encode (v : Values) : string :=
  fold_left (Encode_key v) (sorted_keys v) EmptyString.

(** ** Package [net/url]: the [URL] structure *)

Record Userinfo : Type := mkUserinfo {
  username : string;
  password : string;
  passwordSet : bool
}.

Record url_URL : Type := mkURL {
  Scheme : string;
  Opaque : string;
  User : option Userinfo;
  Host : string;
  Path : string;
  RawPath : string;
  OmitHost : bool;
  ForceQuery : bool;
  RawQuery : string;
  Fragment : string;
  RawFragment : string
}.

Definition URL_set_RawQuery (u : url_URL) (q : string) : url_URL :=
  mkURL (Scheme u) (Opaque u) (User u) (Host u) (Path u) (RawPath u)
        (OmitHost u) (ForceQuery u) q (Fragment u) (RawFragment u).

(** [u.Query()]: the parse of [u.RawQuery], malformed pairs silently dropped. *)
Definition URL_Query (u : url_URL) : Values := fst (ParseQuery (RawQuery u)).

(** ** Package [net/http] *)

Abbreviation Header := (gmap string (list string)).

(** [h.Set(key, value)] for a key already in canonical form. *)
Definition Header_Set (h : Header) (key value : string) : Header := <[key := [value]]> h.

Definition Header_Get (h : Header) (key : string) : string :=
  match h !! key with
  | Some (x :: _) => x
  | _ => EmptyString
  end.

Record Request : Type := mkRequest {
  Method : string;
  URL : url_URL;
  Req_Header : Header;
  Req_Host : string
}.

(** A response as the client sees it: the status code and what reading the
    body to its end gives ([io.ReadAll(resp.Body)]). *)
Record Response : Type := mkResponse {
  StatusCode : Z;
  Body : string + error
}.

(** [time.Duration] counts nanoseconds. *)
Definition time_Second : Z := 1000000000.

(** An [http.Client]: its timeout and the answer of its transport to a
    request.  One call of the DNS client sends at most one request, so a
    function of the request is all that a call can observe. *)
Record http_Client : Type := mkClient {
  Timeout : Z;
  Transport : Request -> Response + error
}.

(** * The client: [internal/dreamhost/dreamhost.go] *)

Definition agentString : string := "cert-manager-webhook-dreamhost/0.1".
Definition dreamhostBaseUrl : string := "https://api.dreamhost.com/".

Record DreamhostResponse : Type := mkDreamhostResponse {
  Result : string;
  Data : string;
  Reason : string
}.

(** DNSRecordValue represents a single record name/value pair. *)
Record DNSRecordValue : Type := mkDNSRecordValue {
  Name : string;
  RecordType : string;
  Value : string
}.

Record DNSClient : Type := mkDNSClient {
  apiKey : string;
  client : http_Client;
  BaseURL : url_URL
}.

(** [%v] of a [DreamhostResponse]: the fields between braces, a space apart. *)
Definition fmt_Sprint_DreamhostResponse (r : DreamhostResponse) : string :=
  "{" +:+ Result r +:+ " " +:+ Data r +:+ " " +:+ Reason r +:+ "}".

(** What a call does to the outside world, in order: hand a request to the
    HTTP client, read the response body, close it. *)
Inductive Event : Type :=
| EvDo (req : Request)
| EvReadAll
| EvClose.

(** The standard-library functions the client calls without depending on
    how they compute. *)
Class GoLibrary : Type := {
  url_Parse : string -> url_URL + error;
  URL_String : url_URL -> string;
  http_NewRequest : string -> string -> Request + error;
  json_Unmarshal : string -> DreamhostResponse + error;
  http_DefaultTransport : Request -> Response + error
}.

Section Client.
Context {L : GoLibrary}.

Definition NewClient (apiKey : string) (httpClient : option http_Client) (baseUrl : string)
  : option DNSClient * option error :=
  if String.eqb apiKey "" then (None, Some (errors_New "empty apiKey"))
  else
    let httpClient :=
      match httpClient with
      | None => mkClient (time_Second * 15) http_DefaultTransport
      | Some h => h
      end in
    let baseUrl := if String.eqb baseUrl "" then dreamhostBaseUrl else baseUrl in
    match url_Parse baseUrl with
    | inr err => (None, Some (fmt_Errorf_w "failed to parse URL: " err))
    | inl apiUrl => (Some (mkDNSClient apiKey httpClient apiUrl), None)
    end.

Definition prepareRequest (c : DNSClient) (req : Request) (cmd uniqueId : string) : Request :=
  let header := Header_Set (Req_Header req) "User-Agent" agentString in
  let q := URL_Query (URL req) in
  let q := Values_Add q "key" (apiKey c) in
  let q := Values_Add q "cmd" cmd in
  let q := Values_Add q "format" "json" in
  let q := if negb (String.eqb uniqueId "") then Values_Add q "unique_id" uniqueId else q in
  mkRequest (Method req) (URL_set_RawQuery (URL req) (Values_Encode q)) header (Req_Host req).

(** [addToReq] updates the request in place and returns an error; the model
    returns the request as the call leaves it, and the error. *)
Definition addToReq (r : DNSRecordValue) (req : Request) : Request * option error :=
  if String.eqb (Name r) "" then
    (req, Some (errors_New "DNSRecordValue.Name must not be empty"))
  else if String.eqb (RecordType r) "" then
    (req, Some (errors_New "DNSRecordValue.RecordType must not be empty"))
  else if String.eqb (Value r) "" then
    (req, Some (errors_New "DNSRecordValue.Value must not be empty"))
  else
    let q := URL_Query (URL req) in
    let q := Values_Add q "record" (Name r) in
    let q := Values_Add q "type" (RecordType r) in
    let q := Values_Add q "value" (Value r) in
    (mkRequest (Method req) (URL_set_RawQuery (URL req) (Values_Encode q))
               (Req_Header req) (Req_Host req), None).

(** The URL text handed to [http.NewRequest]: the first lines of
    [sendRequest]. *)
Definition requestURL (c : DNSClient) : string :=
  let apiUrl := URL_String (BaseURL c) in
  if negb (strings_HasSuffix apiUrl "/") then apiUrl +:+ "/" else apiUrl.

(** [sendRequest] returns the parsed response, the error, and the events of
    the call.  The deferred [Body.Close()] runs on every return that follows
    a successful [Do]. *)
Definition sendRequest (c : DNSClient) (r : DNSRecordValue) (cmd uniqueId : string)
  : option DreamhostResponse * option error * list Event :=
  let apiUrl := requestURL c in
  match http_NewRequest "GET" apiUrl with
  | inr err => (None, Some (fmt_Errorf_w "failed to create request: " err), [])
  | inl req =>
      let req := prepareRequest c req cmd uniqueId in
      match addToReq r req with
      | (_, Some err) => (None, Some err, [])
      | (req, None) =>
          match Transport (client c) req with
          | inr err => (None, Some (fmt_Errorf_w "HTTP request failed: " err), [EvDo req])
          | inl resp =>
              if (StatusCode resp <? 200)%Z || (StatusCode resp >=? 300)%Z then
                (None,
                 Some (errorString ("dreamhost API returned unexpected status code "
                                    +:+ fmt_Sprint_int (StatusCode resp))),
                 [EvDo req; EvClose])
              else
                match Body resp with
                | inr err =>
                    (None, Some (fmt_Errorf_w "failed to read HTTP body: " err),
                     [EvDo req; EvReadAll; EvClose])
                | inl body =>
                    match json_Unmarshal body with
                    | inr err =>
                        (None, Some (fmt_Errorf_w "failed to parse response: " err),
                         [EvDo req; EvReadAll; EvClose])
                    | inl apiResp =>
                        if negb (String.eqb (Result apiResp) "success") then
                          (Some apiResp,
                           Some (errorString ("dreamhost API returned non-successful result: "
                                              +:+ fmt_Sprint_DreamhostResponse apiResp)),
                           [EvDo req; EvReadAll; EvClose])
                        else (Some apiResp, None, [EvDo req; EvReadAll; EvClose])
                    end
                end
          end
      end
  end.

Definition suppressUniqueIdUsedErr (resp : option DreamhostResponse) (err : option error)
  : option error :=
  match err, resp with
  | Some _, Some resp' =>
      if String.eqb (Data resp') "unique_id_already_used" then None else err
  | _, _ => err
  end.

(** CreateRecord creates a DNS record. *)
Definition CreateRecord (c : DNSClient) (r : DNSRecordValue) (uniqueId : string)
  : option error * list Event :=
  let '(resp, err, events) := sendRequest c r "dns-add_record" uniqueId in
  (suppressUniqueIdUsedErr resp err, events).

(** DeleteRecord deletes a DNS record. *)
Definition DeleteRecord (c : DNSClient) (r : DNSRecordValue) (uniqueId : string)
  : option error * list Event :=
  let '(resp, err, events) := sendRequest c r "dns-remove_record" uniqueId in
  (suppressUniqueIdUsedErr resp err, events).

End Client.

(** * A reference instance of the library interface

    [url.Parse], [URL.String] and [http.NewRequest] follow the algorithms of
    [net/url] and [net/http]; [json.Unmarshal] is cut down to the documents
    the DreamHost API answers with.  Nothing proved about the client depends
    on this module: it serves to run the client on concrete inputs. *)

Module GoRef.

Fixpoint strings_Index (s substr : string) : option nat :=
  if strings_HasPrefix s substr then Some O
  else match s with
       | EmptyString => None
       | String _ s' => option_map S (strings_Index s' substr)
       end.

Fixpoint strings_LastIndex (s substr : string) : option nat :=
  match s with
  | EmptyString => if strings_HasPrefix s substr then Some O else None
  | String _ s' =>
      match strings_LastIndex s' substr with
      | Some i => Some (S i)
      | None => if strings_HasPrefix s substr then Some O else None
      end
  end.

Fixpoint strings_Count (s : string) (b : ascii) : nat :=
  match s with
  | EmptyString => O
  | String c s' => (if Ascii.eqb c b then 1 else 0) + strings_Count s' b
  end.

Definition lower_byte (c : ascii) : ascii :=
  if byte_in "A" "Z" c then ascii_of_N (N_of_ascii c + 32) else c.

Fixpoint strings_ToLower (s : string) : string :=
  match s with
  | EmptyString => EmptyString
  | String c s' => String (lower_byte c) (strings_ToLower s')
  end.

Fixpoint string_forallb (p : ascii -> bool) (s : string) : bool :=
  match s with
  | EmptyString => true
  | String c s' => p c && string_forallb p s'
  end.

Definition stringContainsCTLByte (s : string) : bool :=
  negb (string_forallb (fun b => negb ((N_of_ascii b <? 32)%N || (N_of_ascii b =? 127)%N)) s).

(** [getScheme]: [inl (scheme, rest)] or an error. *)
Fixpoint getScheme_from (i : nat) (s rawURL : string) : (string * string) + error :=
  match s with
  | EmptyString => inl (EmptyString, rawURL)
  | String c s' =>
      if byte_in "a" "z" c || byte_in "A" "Z" c then getScheme_from (S i) s' rawURL
      else if byte_in "0" "9" c || Ascii.eqb c "+" || Ascii.eqb c "-" || Ascii.eqb c "." then
        if (i =? 0)%nat then inl (EmptyString, rawURL) else getScheme_from (S i) s' rawURL
      else if Ascii.eqb c ":" then
        if (i =? 0)%nat then inr (errors_New "missing protocol scheme")
        else inl (string_take i rawURL, s')
      else inl (EmptyString, rawURL)
  end.

Definition getScheme (rawURL : string) : (string * string) + error :=
  getScheme_from 0 rawURL rawURL.

Definition validOptionalPort (port : string) : bool :=
  match port with
  | EmptyString => true
  | String c rest => Ascii.eqb c ":" && string_forallb (byte_in "0" "9") rest
  end.

Definition validUserinfo (s : string) : bool :=
  string_forallb
    (fun r =>
       byte_in "A" "Z" r || byte_in "a" "z" r || byte_in "0" "9" r
       || match r with
          | "-" | "." | "_" | ":" | "~" | "!" | "$" | "&" | "'" | "(" | ")"
          | "*" | "+" | "," | ";" | "=" | "%" | "@" => true
          | _ => false
          end%char) s.

Definition parseHost (host : string) : string + error :=
  let plain := unescape host encodeHost in
  if strings_HasPrefix host "[" then
    match strings_LastIndex host "]" with
    | None => inr (errors_New "missing ']' in host")
    | Some i =>
        let colonPort := string_drop (S i) host in
        if negb (validOptionalPort colonPort) then
          inr (errorString ("invalid port " +:+ strconv_Quote colonPort +:+ " after host"))
        else
          match strings_Index (string_take i host) "%25" with
          | Some zone =>
              match unescape (string_take zone host) encodeHost with
              | inr err => inr err
              | inl host1 =>
                  match unescape (string_drop zone (string_take i host)) encodeZone with
                  | inr err => inr err
                  | inl host2 =>
                      match unescape (string_drop i host) encodeHost with
                      | inr err => inr err
                      | inl host3 => inl (host1 +:+ host2 +:+ host3)
                      end
                  end
              end
          | None => plain
          end
    end
  else
    match strings_LastIndex host ":" with
    | Some i =>
        let colonPort := string_drop i host in
        if negb (validOptionalPort colonPort) then
          inr (errorString ("invalid port " +:+ strconv_Quote colonPort +:+ " after host"))
        else plain
    | None => plain
    end.

Definition parseAuthority (authority : string) : (option Userinfo * string) + error :=
  match strings_LastIndex authority "@" with
  | None =>
      match parseHost authority with
      | inr err => inr err
      | inl host => inl (None, host)
      end
  | Some i =>
      match parseHost (string_drop (S i) authority) with
      | inr err => inr err
      | inl host =>
          let userinfo := string_take i authority in
          if negb (validUserinfo userinfo) then inr (errors_New "net/url: invalid userinfo")
          else if negb (strings_Contains userinfo ":") then
            match unescape userinfo encodeUserPassword with
            | inr err => inr err
            | inl userinfo => inl (Some (mkUserinfo userinfo EmptyString false), host)
            end
          else
            let '(username, password, _) := strings_Cut userinfo ":" in
            match unescape username encodeUserPassword with
            | inr err => inr err
            | inl username =>
                match unescape password encodeUserPassword with
                | inr err => inr err
                | inl password => inl (Some (mkUserinfo username password true), host)
                end
            end
      end
  end.

(** [u.setPath(p)]: the decoded path, and the raw one when it is not the
    default encoding of the decoded one. *)
Definition setPath (p : string) : (string * string) + error :=
  match unescape p encodePath with
  | inr err => inr err
  | inl path =>
      inl (path, if String.eqb p (escape path encodePath) then EmptyString else p)
  end.

Definition setFragment (f : string) : (string * string) + error :=
  match unescape f encodeFragment with
  | inr err => inr err
  | inl frag =>
      inl (frag, if String.eqb f (escape frag encodeFragment) then EmptyString else f)
  end.

(** [parse(rawURL, viaRequest)] *)
Definition parse (rawURL : string) (viaRequest : bool) : url_URL + error :=
  if stringContainsCTLByte rawURL then
    inr (errors_New "net/url: invalid control character in URL")
  else if String.eqb rawURL "" && viaRequest then inr (errors_New "empty url")
  else if String.eqb rawURL "*" then
    inl (mkURL "" "" None "" "*" "" false false "" "" "")
  else
    match getScheme rawURL with
    | inr err => inr err
    | inl (scheme, rest) =>
        let scheme := strings_ToLower scheme in
        let '(rest, forceQuery, rawQuery) :=
          if strings_HasSuffix rest "?" && (strings_Count rest "?" =? 1)%nat then
            (string_take (String.length rest - 1) rest, true, EmptyString)
          else
            let '(before, after, _) := strings_Cut rest "?" in (before, false, after) in
        if negb (strings_HasPrefix rest "/") && negb (String.eqb scheme "") then
          inl (mkURL scheme rest None "" "" "" false forceQuery rawQuery "" "")
        else if negb (strings_HasPrefix rest "/") && viaRequest then
          inr (errors_New "invalid URI for request")
        else if negb (strings_HasPrefix rest "/")
                && strings_Contains (fst (fst (strings_Cut rest "/"))) ":" then
          inr (errors_New "first path segment in URL cannot contain colon")
        else
          let withAuthority :=
            (negb (String.eqb scheme "")
             || negb viaRequest && negb (strings_HasPrefix rest "///"))
            && strings_HasPrefix rest "//" in
          let authority_rest :=
            if withAuthority then
              let a := string_drop 2 rest in
              match strings_Index a "/" with
              | Some i => (string_take i a, string_drop i a)
              | None => (a, EmptyString)
              end
            else (EmptyString, rest) in
          let omitHost :=
            negb withAuthority && negb (String.eqb scheme "") && strings_HasPrefix rest "/" in
          match (if withAuthority then parseAuthority (fst authority_rest)
                 else inl (None, EmptyString)) with
          | inr err => inr err
          | inl (user, host) =>
              match setPath (snd authority_rest) with
              | inr err => inr err
              | inl (path, rawPath) =>
                  inl (mkURL scheme "" user host path rawPath omitHost forceQuery rawQuery "" "")
              end
          end
    end.

Definition url_Error (op url : string) (err : error) : error :=
  wrapError (op +:+ " " +:+ strconv_Quote url +:+ ": " +:+ Error err) err.

Definition Parse (rawURL : string) : url_URL + error :=
  let '(u, frag, _) := strings_Cut rawURL "#" in
  match parse u false with
  | inr err => inr (url_Error "parse" u err)
  | inl url =>
      if String.eqb frag "" then inl url
      else
        match setFragment frag with
        | inr err => inr (url_Error "parse" rawURL err)
        | inl (fragment, rawFragment) =>
            inl (mkURL (Scheme url) (Opaque url) (User url) (Host url) (Path url) (RawPath url)
                       (OmitHost url) (ForceQuery url) (RawQuery url) fragment rawFragment)
        end
  end.

Definition validEncoded (s : string) (mode : encoding) : bool :=
  string_forallb
    (fun c =>
       match c with
       | "!" | "$" | "&" | "'" | "(" | ")" | "*" | "+" | "," | ";" | "=" | ":" | "@"
       | "[" | "]" | "%" => true
       | _ => negb (shouldEscape c mode)
       end%char) s.

Definition EscapedPath (u : url_URL) : string :=
  if negb (String.eqb (RawPath u) "") && validEncoded (RawPath u) encodePath
     && match unescape (RawPath u) encodePath with
        | inl p => String.eqb p (Path u)
        | inr _ => false
        end
  then RawPath u
  else if String.eqb (Path u) "*" then "*"
  else escape (Path u) encodePath.

Definition EscapedFragment (u : url_URL) : string :=
  if negb (String.eqb (RawFragment u) "") && validEncoded (RawFragment u) encodeFragment
     && match unescape (RawFragment u) encodeFragment with
        | inl f => String.eqb f (Fragment u)
        | inr _ => false
        end
  then RawFragment u
  else escape (Fragment u) encodeFragment.

Definition Userinfo_String (u : Userinfo) : string :=
  escape (username u) encodeUserPassword
  +:+ (if passwordSet u then ":" +:+ escape (password u) encodeUserPassword else "").

Definition is_some {A} (o : option A) : bool :=
  match o with Some _ => true | None => false end.

(** [u.String()], writing into [buf] in the library's order. *)
Definition String_ (u : url_URL) : string :=
  let buf := if negb (String.eqb (Scheme u) "") then Scheme u +:+ ":" else "" in
  let buf :=
    if negb (String.eqb (Opaque u) "") then buf +:+ Opaque u
    else
      let buf :=
        if negb (String.eqb (Scheme u) "") || negb (String.eqb (Host u) "") || is_some (User u)
        then
          if OmitHost u && String.eqb (Host u) "" && negb (is_some (User u)) then buf
          else
            let buf :=
              if negb (String.eqb (Host u) "") || negb (String.eqb (Path u) "")
                 || is_some (User u)
              then buf +:+ "//" else buf in
            let buf :=
              match User u with
              | Some ui => buf +:+ Userinfo_String ui +:+ "@"
              | None => buf
              end in
            if negb (String.eqb (Host u) "") then buf +:+ escape (Host u) encodeHost else buf
        else buf in
      let path := EscapedPath u in
      let buf :=
        if negb (String.eqb path "") && negb (strings_HasPrefix path "/")
           && negb (String.eqb (Host u) "")
        then buf +:+ "/" else buf in
      let buf :=
        if String.eqb buf ""
           && strings_Contains (fst (fst (strings_Cut path "/"))) ":"
        then buf +:+ "./" else buf in
      buf +:+ path in
  let buf :=
    if ForceQuery u || negb (String.eqb (RawQuery u) "") then buf +:+ "?" +:+ RawQuery u
    else buf in
  if negb (String.eqb (Fragment u) "") then buf +:+ "#" +:+ EscapedFragment u else buf.

(** [net/http]: a method is a non-empty token. *)
Definition isTokenByte (c : ascii) : bool :=
  byte_in "a" "z" c || byte_in "A" "Z" c || byte_in "0" "9" c
  || match c with
     | "!" | "#" | "$" | "%" | "&" | "'" | "*" | "+" | "-" | "." | "^" | "_" | "`"
     | "|" | "~" => true
     | _ => false
     end%char.

Definition validMethod (method : string) : bool :=
  negb (String.eqb method "") && string_forallb isTokenByte method.

Definition hasPort (s : string) : bool :=
  match strings_LastIndex s ":", strings_LastIndex s "]" with
  | Some i, Some j => (j <? i)%nat
  | Some _, None => true
  | None, _ => false
  end.

Definition removeEmptyPort (host : string) : string :=
  if hasPort host && strings_HasSuffix host ":"
  then string_take (String.length host - 1) host
  else host.

(** [http.NewRequest(method, url, nil)] *)
Definition NewRequest (method url : string) : Request + error :=
  let method := if String.eqb method "" then "GET" else method in
  if negb (validMethod method) then
    inr (errorString ("net/http: invalid method " +:+ strconv_Quote method))
  else
    match Parse url with
    | inr err => inr err
    | inl u =>
        let host := removeEmptyPort (Host u) in
        let u := mkURL (Scheme u) (Opaque u) (User u) host (Path u) (RawPath u)
                       (OmitHost u) (ForceQuery u) (RawQuery u) (Fragment u) (RawFragment u) in
        inl (mkRequest method u ∅ host)
    end.

(** A decoder for the documents the API answers with: one JSON object whose
    members are strings without escapes, with no white space between tokens.
    Member names match the fields of [DreamhostResponse] whatever their
    case; other members are skipped.  Any other text is reported as a syntax
    error. *)
Definition syntaxError : error := errorString "invalid character looking for beginning of value".

(** The text of a string literal up to its closing quote, and what follows. *)
Fixpoint json_string (s : string) : option (string * string) :=
  match s with
  | EmptyString => None
  | String c s' =>
      if Ascii.eqb c dquote then Some (EmptyString, s')
      else if Ascii.eqb c "\" || (N_of_ascii c <? 32)%N then None
      else match json_string s' with
           | Some (lit, rest) => Some (String c lit, rest)
           | None => None
           end
  end.

Definition set_field (r : DreamhostResponse) (name value : string) : DreamhostResponse :=
  let name := strings_ToLower name in
  if String.eqb name "result" then mkDreamhostResponse value (Data r) (Reason r)
  else if String.eqb name "data" then mkDreamhostResponse (Result r) value (Reason r)
  else if String.eqb name "reason" then mkDreamhostResponse (Result r) (Data r) value
  else r.

(** Members of the object, after the opening brace or a comma. *)
Fixpoint json_members (fuel : nat) (r : DreamhostResponse) (s : string)
  : DreamhostResponse + error :=
  match fuel with
  | O => inr syntaxError
  | S fuel' =>
      match s with
      | String q s1 =>
          if negb (Ascii.eqb q dquote) then inr syntaxError
          else
            match json_string s1 with
            | Some (name, String colon (String q2 s2)) =>
                if negb (Ascii.eqb colon ":" && Ascii.eqb q2 dquote) then inr syntaxError
                else
                  match json_string s2 with
                  | Some (value, String "}" EmptyString) => inl (set_field r name value)
                  | Some (value, String "," s3) => json_members fuel' (set_field r name value) s3
                  | _ => inr syntaxError
                  end
            | _ => inr syntaxError
            end
      | EmptyString => inr syntaxError
      end
  end.

Definition Unmarshal (data : string) : DreamhostResponse + error :=
  match data with
  | String "{" (String "}" EmptyString) => inl (mkDreamhostResponse "" "" "")
  | String "{" rest => json_members (String.length rest) (mkDreamhostResponse "" "" "") rest
  | _ => inr syntaxError
  end.

(** Without a network every connection is refused. *)
Definition DefaultTransport (req : Request) : Response + error :=
  inr (errorString "dial tcp: connect: connection refused").

#[export] Instance lib : GoLibrary := {|
  url_Parse := Parse;
  URL_String := String_;
  http_NewRequest := NewRequest;
  json_Unmarshal := Unmarshal;
  http_DefaultTransport := DefaultTransport
|}.

(** The mock server of the test-suite, seen from the client: whatever the
    request, it answers with the given status and body. *)
Definition mockHttpResponse (status : Z) (body : string) : http_Client :=
  mkClient (time_Second * 15) (fun _ => inl (mkResponse status (inl body))).

(** A JSON object with the given string members. *)
Definition json_member (kv : string * string) : string :=
  String dquote (fst kv) +:+ String dquote (String ":" (String dquote (snd kv)))
  +:+ String dquote EmptyString.

Definition json_object (members : list (string * string)) : string :=
  "{" +:+ strings_Join (map json_member members) "," +:+ "}".

End GoRef.

(** * Vocabulary of the properties *)

(** The two public operations and their command parameter. *)
Inductive Operation : Type := OpCreate | OpDelete.

Definition command (op : Operation) : string :=
  match op with
  | OpCreate => "dns-add_record"
  | OpDelete => "dns-remove_record"
  end.

Definition perform {L : GoLibrary} (op : Operation)
  : DNSClient -> DNSRecordValue -> string -> option error * list Event :=
  match op with
  | OpCreate => CreateRecord
  | OpDelete => DeleteRecord
  end.

(** "Both operations share one underlying call path, differing only in the
    command parameter": that call path, for a given command, is the request
    path followed by the suppression rule. *)
Definition callPath {L : GoLibrary} (cmd : string) (c : DNSClient) (r : DNSRecordValue)
           (uniqueId : string) : option error * list Event :=
  let '(resp, err, events) := sendRequest c r cmd uniqueId in
  (suppressUniqueIdUsedErr resp err, events).

(** The requests handed to the HTTP client during a call. *)
Definition sent (events : list Event) : list Request :=
  flat_map (fun e => match e with EvDo req => [req] | _ => [] end) events.

(** The fields of a record value, in the order they are checked. *)
Inductive Field : Type := FName | FRecordType | FValue.

Definition fieldName (f : Field) : string :=
  match f with
  | FName => "DNSRecordValue.Name"
  | FRecordType => "DNSRecordValue.RecordType"
  | FValue => "DNSRecordValue.Value"
  end.

Definition fieldOf (f : Field) (r : DNSRecordValue) : string :=
  match f with
  | FName => Name r
  | FRecordType => RecordType r
  | FValue => Value r
  end.

(** [f] is the first empty field of [r]: it is empty and the fields checked
    before it are not. *)
Definition firstEmpty (r : DNSRecordValue) (f : Field) : Prop :=
  fieldOf f r = ""
  /\ match f with
     | FName => True
     | FRecordType => Name r <> ""
     | FValue => Name r <> "" /\ RecordType r <> ""
     end.

Definition validRecord (r : DNSRecordValue) : Prop :=
  Name r <> "" /\ RecordType r <> "" /\ Value r <> "".

(** The values a query holds for a key, in order. *)
Definition valuesOf (q : Values) (k : string) : list string := default [] (q !! k).

(** The query string holds the parameter [k] with value [v]. *)
Definition hasParam (q : Values) (k v : string) : Prop := In v (valuesOf q k).

(** The values given to [k] in a list of pairs, in order. *)
Definition paramValues (k : string) (params : list (string * string)) : list string :=
  map snd (List.filter (fun kv => String.eqb (fst kv) k) params).

(** The parameters [prepareRequest] and [addToReq] add, in the order of the
    [Add] calls. *)
Definition preparedParams (c : DNSClient) (cmd uniqueId : string) : list (string * string) :=
  [("key", apiKey c); ("cmd", cmd); ("format", "json")]
  ++ (if String.eqb uniqueId "" then [] else [("unique_id", uniqueId)]).

Definition recordParams (r : DNSRecordValue) : list (string * string) :=
  [("record", Name r); ("type", RecordType r); ("value", Value r)].

(** The call built the request [req] out of the one [http.NewRequest] gave,
    [req0], handed it to the HTTP client and got the response [resp]. *)
Definition exchange {L : GoLibrary} (c : DNSClient) (r : DNSRecordValue) (cmd uniqueId : string)
           (req0 req : Request) (resp : Response) : Prop :=
  http_NewRequest "GET" (requestURL c) = inl req0
  /\ addToReq r (prepareRequest c req0 cmd uniqueId) = (req, None)
  /\ Transport (client c) req = inl resp.

Definition status2xx (resp : Response) : Prop :=
  (200 <= StatusCode resp < 300)%Z.

(** The suppression rule applies: a response and an error came back together
    and the response carries the sentinel. *)
Definition suppressible (resp : option DreamhostResponse) (err : option error) : Prop :=
  exists resp' e, resp = Some resp' /\ err = Some e
                  /\ Data resp' = "unique_id_already_used".

(** A text ends with exactly one slash. *)
Definition endsWithOneSlash (s : string) : Prop :=
  strings_HasSuffix s "/" = true /\ strings_HasSuffix s "//" = false.

(** Two requests for the same target: they differ at most in the query
    string of their URL and in their headers. *)
Definition sameTarget (a b : Request) : Prop :=
  Method a = Method b /\ Req_Host a = Req_Host b
  /\ URL_set_RawQuery (URL a) "" = URL_set_RawQuery (URL b) "".

(** Two requests that differ at most in the query string of their URL. *)
Definition sameButQuery (a b : Request) : Prop :=
  sameTarget a b /\ Req_Header a = Req_Header b.

(** The query string of an issued request as the specification describes
    it: the six fixed parameters, and [unique_id] present with the caller's
    identifier when that is non-empty, absent altogether when it is empty. *)
Definition queryAsSpecified (c : DNSClient) (r : DNSRecordValue) (cmd uniqueId : string)
           (q : Values) : Prop :=
  hasParam q "key" (apiKey c) /\ hasParam q "cmd" cmd /\ hasParam q "format" "json"
  /\ hasParam q "record" (Name r) /\ hasParam q "type" (RecordType r)
  /\ hasParam q "value" (Value r)
  /\ (uniqueId <> "" -> hasParam q "unique_id" uniqueId)
  /\ (uniqueId = "" -> q !! "unique_id" = None).

(** * The exchanges of the test-suite *)

Module Tests.

Definition apiKey : string := "apikey123".
Definition recordValue : DNSRecordValue := mkDNSRecordValue "example.com" "TXT" "testValue".

(** The address of a mock server, as [NewClient] parses it. *)
Definition serverURL : string := "http://127.0.0.1:8080".
Definition serverParsed : url_URL :=
  mkURL "http" "" None "127.0.0.1:8080" "" "" false false "" "" "".

Definition clientFor (status : Z) (body : string) : DNSClient :=
  mkDNSClient apiKey (GoRef.mockHttpResponse status body) serverParsed.

Definition bodyAdded : string :=
  GoRef.json_object [("result", "success"); ("data", "record_added")].
Definition bodyRemoved : string :=
  GoRef.json_object [("data", "record_removed"); ("result", "success")].
Definition bodyRepeat : string :=
  GoRef.json_object [("data", "unique_id_already_used"); ("result", "error")].
Definition bodyExists : string :=
  GoRef.json_object [("result", "error"); ("data", "record_already_exists_remove_first")].

(** A server whose body cannot be read to its end. *)
Definition clientBrokenBody : DNSClient :=
  mkDNSClient apiKey
    (mkClient (time_Second * 15)
       (fun _ => inl (mkResponse 200 (inr (errorString "unexpected EOF")))))
    serverParsed.

(** The client of [NewClient("test123", nil, "")]. *)
Definition defaultClient : DNSClient :=
  mkDNSClient "test123" (mkClient (time_Second * 15) GoRef.DefaultTransport)
    (mkURL "https" "" None "api.dreamhost.com" "/" "" false false "" "" "").

(** The request [http.NewRequest] makes for the mock server. *)
Definition request0 : Request :=
  mkRequest "GET" (mkURL "http" "" None "127.0.0.1:8080" "/" "" false false "" "" "")
            ∅ "127.0.0.1:8080".

(** Base URLs off the beaten track: one that ends with two slashes, one that
    carries a query string of its own. *)
Definition twoSlashes : string := "http://example.com//".
Definition twoSlashesParsed : url_URL :=
  mkURL "http" "" None "example.com" "//" "" false false "" "" "".

Definition withQuery : string := "http://example.com/?unique_id=x".
Definition withQueryParsed : url_URL :=
  mkURL "http" "" None "example.com" "/" "" false false "unique_id=x" "" "".

Definition clientTwoSlashes : DNSClient :=
  mkDNSClient apiKey (GoRef.mockHttpResponse 200 bodyAdded) twoSlashesParsed.
Definition clientWithQuery : DNSClient :=
  mkDNSClient apiKey (GoRef.mockHttpResponse 200 bodyAdded) withQueryParsed.

(** A client whose server is closed: the connection is refused. *)
Definition clientClosed : DNSClient :=
  mkDNSClient "testApiKey" (mkClient (time_Second * 15) GoRef.DefaultTransport) serverParsed.

(** A record value without a name. *)
Definition recordNoName : DNSRecordValue := mkDNSRecordValue "" "TXT" "testValue".

End Tests.

(** * Vocabulary of the library lemmas *)

(** The two hexadecimal digits [escape] writes for a byte. *)
Definition hex_hi (c : ascii) : ascii := upperhex (N.shiftr (N_of_ascii c) 4).
Definition hex_lo (c : ascii) : ascii := upperhex (N.land (N_of_ascii c) 15).

(** The bytes with a meaning of their own in a query string. *)
Definition query_special (c : ascii) : bool :=
  match c with
  | "%" | "+" | "&" | "=" | ";" | " " => true
  | _ => false
  end%char.

(** What the first loop of [unescape] counts on an escaped text. *)
Fixpoint escaped_count (s : string) : nat :=
  match s with
  | EmptyString => O
  | String c s' =>
      (if negb (Ascii.eqb c " ") && shouldEscape c encodeQueryComponent then 1 else 0)
      + escaped_count s'
  end.

Fixpoint has_space (s : string) : bool :=
  match s with
  | EmptyString => false
  | String c s' => Ascii.eqb c " " || has_space s'
  end.

(** One [key=value] pair as [Encode] writes it. *)
Definition pair_enc (kv : string * string) : string :=
  QueryEscape (fst kv) +:+ "=" +:+ QueryEscape (snd kv).

Definition add_pair (m : Values) (kv : string * string) : Values :=
  Values_Add m (fst kv) (snd kv).

(** The pairs of the keys [keys], each key with its values in order. *)
Definition pairs_of (v : Values) (keys : list string) : list (string * string) :=
  flat_map (fun k => map (fun x => (k, x)) (default [] (v !! k))) keys.

Definition join_step (buf piece : string) : string :=
  (if String.eqb buf "" then buf else buf +:+ "&") +:+ piece.

(** No key is bound to an empty list: [Add] and [ParseQuery] give such
    values, and [Encode] writes nothing for a key without values. *)
Definition values_wf (v : Values) : Prop :=
  forall k vs, v !! k = Some vs -> vs <> [].

(** The number a text of decimal digits denotes, read from the left with
    [v] already read. *)
Fixpoint digits_value (v : N) (s : string) : N :=
  match s with
  | EmptyString => v
  | String c s' => digits_value (10 * v + (N_of_ascii c - 48))%N s'
  end.

(** * Vocabulary of the further properties *)

(** Every way a call of the request path can end, with what it returns
    then: the state machine of one call, read off [sendRequest] branch by
    branch. *)
Inductive requestOutcome {L : GoLibrary} (c : DNSClient) (r : DNSRecordValue)
          (cmd uniqueId : string)
  : option DreamhostResponse * option error * list Event -> Prop :=
| EndNotCreated (cause : error) :
    http_NewRequest "GET" (requestURL c) = inr cause ->
    requestOutcome c r cmd uniqueId
      (None, Some (fmt_Errorf_w "failed to create request: " cause), [])
| EndInvalid (req0 : Request) (f : Field) :
    http_NewRequest "GET" (requestURL c) = inl req0 ->
    firstEmpty r f ->
    requestOutcome c r cmd uniqueId
      (None, Some (errors_New (fieldName f +:+ " must not be empty")), [])
| EndNotSent (req0 req : Request) (cause : error) :
    http_NewRequest "GET" (requestURL c) = inl req0 ->
    addToReq r (prepareRequest c req0 cmd uniqueId) = (req, None) ->
    Transport (client c) req = inr cause ->
    requestOutcome c r cmd uniqueId
      (None, Some (fmt_Errorf_w "HTTP request failed: " cause), [EvDo req])
| EndStatus (req0 req : Request) (resp : Response) :
    exchange c r cmd uniqueId req0 req resp ->
    ~ status2xx resp ->
    requestOutcome c r cmd uniqueId
      (None,
       Some (errorString ("dreamhost API returned unexpected status code "
                          +:+ fmt_Sprint_int (StatusCode resp))),
       [EvDo req; EvClose])
| EndUnread (req0 req : Request) (resp : Response) (cause : error) :
    exchange c r cmd uniqueId req0 req resp ->
    status2xx resp ->
    Body resp = inr cause ->
    requestOutcome c r cmd uniqueId
      (None, Some (fmt_Errorf_w "failed to read HTTP body: " cause),
       [EvDo req; EvReadAll; EvClose])
| EndUnparsed (req0 req : Request) (resp : Response) (body : string) (cause : error) :
    exchange c r cmd uniqueId req0 req resp ->
    status2xx resp ->
    Body resp = inl body ->
    json_Unmarshal body = inr cause ->
    requestOutcome c r cmd uniqueId
      (None, Some (fmt_Errorf_w "failed to parse response: " cause),
       [EvDo req; EvReadAll; EvClose])
| EndRefused (req0 req : Request) (resp : Response) (body : string)
             (apiResp : DreamhostResponse) :
    exchange c r cmd uniqueId req0 req resp ->
    status2xx resp ->
    Body resp = inl body ->
    json_Unmarshal body = inl apiResp ->
    Result apiResp <> "success" ->
    requestOutcome c r cmd uniqueId
      (Some apiResp,
       Some (errorString ("dreamhost API returned non-successful result: "
                          +:+ fmt_Sprint_DreamhostResponse apiResp)),
       [EvDo req; EvReadAll; EvClose])
| EndSuccess (req0 req : Request) (resp : Response) (body : string)
             (apiResp : DreamhostResponse) :
    exchange c r cmd uniqueId req0 req resp ->
    status2xx resp ->
    Body resp = inl body ->
    json_Unmarshal body = inl apiResp ->
    Result apiResp = "success" ->
    requestOutcome c r cmd uniqueId
      (Some apiResp, None, [EvDo req; EvReadAll; EvClose]).

(** The texts the messages of the errors of a call start with, one for each
    kind of failure. *)
Definition errorPrefixes : list string :=
  ["DNSRecordValue.";
   "failed to create request: ";
   "HTTP request failed: ";
   "dreamhost API returned unexpected status code ";
   "failed to read HTTP body: ";
   "failed to parse response: ";
   "dreamhost API returned non-successful result: "].

(** How often a call closed a response body, and how often it read one. *)
Definition closes (events : list Event) : nat :=
  length (List.filter (fun e => match e with EvClose => true | _ => false end) events).

Definition reads (events : list Event) : nat :=
  length (List.filter (fun e => match e with EvReadAll => true | _ => false end) events).

(** The query string of a request whose URL came without one: the pairs in
    the order of their keys. *)
Definition wireQuery (c : DNSClient) (r : DNSRecordValue) (cmd uniqueId : string) : string :=
  "cmd=" +:+ QueryEscape cmd
  +:+ "&format=json&key=" +:+ QueryEscape (apiKey c)
  +:+ "&record=" +:+ QueryEscape (Name r)
  +:+ "&type=" +:+ QueryEscape (RecordType r)
  +:+ (if String.eqb uniqueId "" then "" else "&unique_id=" +:+ QueryEscape uniqueId)
  +:+ "&value=" +:+ QueryEscape (Value r).

(** The part of a URL that says where a request goes: scheme, user, host and
    path.  The query string and the fragment are left out. *)
Definition URL_target (u : url_URL) : url_URL :=
  mkURL (Scheme u) (Opaque u) (User u) (Host u) (Path u) (RawPath u)
        (OmitHost u) false "" "" "".

(** The URL a request is sent to, as text, up to its query string. *)
Definition sentURLText {L : GoLibrary} (req : Request) : string :=
  URL_String (URL_target (URL req)).

Module MoreTests.

(** A base URL with an IPv6 zone that holds a byte above 127 (here the two
    bytes of a UTF-8 letter): [url.Parse] takes it, but prints the zone with
    [%C3%A9], which it does not take back. *)
Definition zoneURL : string := "http://[::1%25" +:+ String "195" (String "169" "]").
Definition zoneParsed : url_URL :=
  mkURL "http" "" None ("[::1%" +:+ String "195" (String "169" "]")) "" "" false false "" "" "".
Definition clientZone : DNSClient :=
  mkDNSClient Tests.apiKey (GoRef.mockHttpResponse 200 Tests.bodyAdded) zoneParsed.

(** The base URL with a [unique_id] of its own, in front of a server that
    answers with the sentinel. *)
Definition clientWithQueryRepeat : DNSClient :=
  mkDNSClient Tests.apiKey (GoRef.mockHttpResponse 200 Tests.bodyRepeat) Tests.withQueryParsed.

(** The request [http.NewRequest] makes for that base URL: the slash that
    was appended to the text is part of the value of [unique_id]. *)
Definition requestWithQuery : Request :=
  mkRequest "GET" (mkURL "http" "" None "example.com" "/" "" false false "unique_id=x/" "" "")
            ∅ "example.com".

(** A client whose exported [BaseURL] field was set by hand to a URL whose
    text does not parse back: the space of the host is written [%20], which
    no host may hold. *)
Definition clientBadHost : DNSClient :=
  mkDNSClient Tests.apiKey (GoRef.mockHttpResponse 200 Tests.bodyAdded)
    (mkURL "" "" None "a b" "" "" false false "" "" "").

(** A base URL whose query string has a pair that does not unescape. *)
Definition clientBadQuery : DNSClient :=
  mkDNSClient Tests.apiKey (GoRef.mockHttpResponse 200 Tests.bodyAdded)
    (mkURL "http" "" None "example.com" "/" "" false false "a=%zz&b=1" "" "").

(** A record value with bytes that a query string cannot hold as they are. *)
Definition recordSpecial : DNSRecordValue :=
  mkDNSRecordValue "_acme-challenge.example.com" "TXT" "a b&c=d/e+f".

End MoreTests.

(** * Lemmas on the library model *)

Section LibraryLemmas.

(** ** Strings *)

Lemma string_app_nil_l (s : string) : "" +:+ s = s.
Proof. reflexivity. Qed.

Lemma string_app_cons (c : ascii) (s t : string) : String c s +:+ t = String c (s +:+ t).
Proof. reflexivity. Qed.

(** Within this section [simpl] pushes append through the constructors of
    its first argument and leaves comparisons of bytes folded. *)
#[local] Arguments String.append !_ _ /.
#[local] Arguments Ascii.eqb : simpl never.

Lemma string_app_nil_r (s : string) : s +:+ "" = s.
Proof. induction s as [|c s IH]; simpl; [reflexivity | now rewrite IH]. Qed.

Lemma string_app_assoc (a b c : string) : (a +:+ b) +:+ c = a +:+ (b +:+ c).
Proof. induction a as [|x a IH]; simpl; [reflexivity | now rewrite IH]. Qed.

Lemma string_app_length (a b : string) :
  String.length (a +:+ b) = (String.length a + String.length b)%nat.
Proof. induction a as [|x a IH]; simpl; [reflexivity | now rewrite IH]. Qed.

Lemma string_app_inv_r (a b c : string) : a +:+ c = b +:+ c -> a = b.
Proof.
  revert b. induction a as [|x a IH]; intros [|y b] H; simpl in *.
  - reflexivity.
  - apply (f_equal String.length) in H. simpl in H. rewrite string_app_length in H. lia.
  - apply (f_equal String.length) in H. simpl in H. rewrite string_app_length in H. lia.
  - injection H as -> H. f_equal. now apply IH.
Qed.

Lemma string_drop_app (a b : string) : string_drop (String.length a) (a +:+ b) = b.
Proof. induction a as [|x a IH]; simpl; [reflexivity | exact IH]. Qed.

Lemma string_take_drop (n : nat) (s : string) : string_take n s +:+ string_drop n s = s.
Proof.
  revert s. induction n as [|n IH]; intros [|c s]; simpl; try reflexivity.
  now rewrite IH.
Qed.

Lemma HasPrefix_app (p s : string) : strings_HasPrefix (p +:+ s) p = true.
Proof.
  induction p as [|c p IH]; simpl; [reflexivity |].
  now rewrite Ascii.eqb_refl, IH.
Qed.

Lemma HasPrefix_inv (s p : string) :
  strings_HasPrefix s p = true -> exists t, s = p +:+ t.
Proof.
  revert s. induction p as [|c p IH]; intros s H; simpl in *.
  - now exists s.
  - destruct s as [|x s]; [discriminate |].
    apply andb_true_iff in H as [Hx Hp]. apply Ascii.eqb_eq in Hx as ->.
    destruct (IH _ Hp) as [t ->]. now exists t.
Qed.

Lemma Contains_HasPrefix (s p : string) :
  strings_HasPrefix s p = true -> strings_Contains s p = true.
Proof. destruct s; simpl; intros ->; reflexivity. Qed.

Lemma Contains_app (a p s : string) : strings_Contains (a +:+ p +:+ s) p = true.
Proof.
  induction a as [|c a IH].
  - change ("" +:+ p +:+ s) with (p +:+ s). apply Contains_HasPrefix, HasPrefix_app.
  - simpl. rewrite IH. apply orb_true_r.
Qed.

Lemma Contains_prefix (p s : string) : strings_Contains (p +:+ s) p = true.
Proof. exact (Contains_app "" p s). Qed.

Lemma Contains_refl (s : string) : strings_Contains s s = true.
Proof. rewrite <- (string_app_nil_r s) at 1. apply Contains_prefix. Qed.

Lemma HasSuffix_app (a b : string) : strings_HasSuffix (a +:+ b) b = true.
Proof.
  unfold strings_HasSuffix. rewrite string_app_length.
  apply andb_true_iff; split; [apply Nat.leb_le; lia |].
  replace (String.length a + String.length b - String.length b)%nat
    with (String.length a) by lia.
  rewrite string_drop_app. apply String.eqb_refl.
Qed.

Lemma HasSuffix_inv (s b : string) :
  strings_HasSuffix s b = true -> exists a, s = a +:+ b.
Proof.
  unfold strings_HasSuffix. intros H. apply andb_true_iff in H as [_ H].
  apply String.eqb_eq in H.
  exists (string_take (String.length s - String.length b) s).
  rewrite <- H at 2. symmetry. apply string_take_drop.
Qed.

(** Appending a byte to a text that does not end with it gives a text that
    ends with it once, not twice. *)
Lemma HasSuffix_twice (s b : string) :
  strings_HasSuffix (s +:+ b) (b +:+ b) = true -> strings_HasSuffix s b = true.
Proof.
  intros H. destruct (HasSuffix_inv _ _ H) as [a Ha].
  rewrite <- string_app_assoc in Ha. apply string_app_inv_r in Ha. subst s.
  apply HasSuffix_app.
Qed.

Lemma ContainsByte_app (a b : string) (c : ascii) :
  strings_ContainsByte (a +:+ b) c = strings_ContainsByte a c || strings_ContainsByte b c.
Proof.
  induction a as [|x a IH]; simpl; [reflexivity |].
  now rewrite IH, orb_assoc.
Qed.

Lemma Contains_byte (s : string) (c : ascii) :
  strings_Contains s (String c "") = strings_ContainsByte s c.
Proof.
  induction s as [|x s IH]; simpl; [reflexivity |].
  now rewrite IH, andb_true_r.
Qed.

Lemma Cut_byte_found (a b : string) (c : ascii) :
  strings_ContainsByte a c = false ->
  strings_Cut (a +:+ String c b) (String c "") = (a, b, true).
Proof.
  induction a as [|x a IH]; simpl; intros H.
  - now rewrite Ascii.eqb_refl.
  - apply orb_false_iff in H as [Hx Ha]. rewrite Hx. simpl.
    now rewrite (IH Ha).
Qed.

Lemma Cut_byte_none (a : string) (c : ascii) :
  strings_ContainsByte a c = false ->
  strings_Cut a (String c "") = (a, "", false).
Proof.
  induction a as [|x a IH]; simpl; intros H; [reflexivity |].
  apply orb_false_iff in H as [Hx Ha]. rewrite Hx. simpl.
  now rewrite (IH Ha).
Qed.

(** ** Printing integers *)

Lemma digit_char_value (d : N) : (d < 10)%N -> (N_of_ascii (digit_char d) - 48)%N = d.
Proof.
  intros H. unfold digit_char. rewrite N_ascii_embedding by lia. lia.
Qed.

Lemma log2_div10 (n : N) : (n / 10 <> 0)%N -> (N.log2 (n / 10) < N.log2 n)%N.
Proof.
  intros H.
  assert (H10 : (10 <= n)%N).
  { destruct (N.lt_ge_cases n 10) as [Hlt | Hge]; [| exact Hge].
    rewrite N.div_small in H by exact Hlt. congruence. }
  assert (Hle : (n / 10 <= N.div2 n)%N).
  { rewrite N.div2_div. apply N.div_le_compat_l. lia. }
  apply N.le_lt_trans with (N.log2 (N.div2 n)); [now apply N.log2_le_mono |].
  rewrite N.div2_spec, N.log2_shiftr.
  assert (0 < N.log2 n)%N by (apply N.log2_pos; lia). lia.
Qed.

(** The digits [fmt_digits] writes in front of [acc] denote [n]. *)
Lemma fmt_digits_value (fuel : nat) :
  forall (n : N) (acc : string),
  (N.log2 n < N.of_nat fuel)%N ->
  digits_value 0 (fmt_digits fuel n acc) = digits_value n acc.
Proof.
  induction fuel as [|fuel IH]; intros n acc Hfuel; [lia |].
  simpl fmt_digits.
  assert (Hmod : (n mod 10 < 10)%N) by (apply N.mod_lt; lia).
  destruct (N.eqb_spec (n / 10) 0) as [Hz | Hnz].
  - simpl. rewrite digit_char_value by exact Hmod.
    f_equal. pose proof (N.div_mod n 10 ltac:(lia)). lia.
  - rewrite IH.
    + simpl. rewrite digit_char_value by exact Hmod.
      f_equal. pose proof (N.div_mod n 10 ltac:(lia)). lia.
    + pose proof (log2_div10 n Hnz). lia.
Qed.

(** [%v] of an integer prints its decimal digits, after a minus sign when it
    is negative. *)
Lemma fmt_Sprint_int_value (z : Z) :
  (0 <= z)%Z /\ digits_value 0 (fmt_Sprint_int z) = Z.to_N z
  \/ (z < 0)%Z /\ fmt_Sprint_int z = String "-" (fmt_Sprint_int (- z)).
Proof.
  unfold fmt_Sprint_int.
  destruct (Z.ltb_spec z 0) as [Hneg | Hpos].
  - right. split; [exact Hneg |].
    destruct (Z.ltb_spec (- z) 0) as [H | _]; [lia |].
    now rewrite Z.abs_opp.
  - left. split; [exact Hpos |].
    rewrite fmt_digits_value by lia. simpl. now rewrite Z.abs_eq.
Qed.

(** ** Query escaping

    Facts about single bytes are checked on the 256 bytes. *)

Ltac each_byte c := destruct c as [[] [] [] [] [] [] [] []]; vm_compute; reflexivity.

Lemma hex_roundtrip (c : ascii) :
  ascii_of_N (N.lor (N.shiftl (unhex (hex_hi c)) 4) (unhex (hex_lo c))) = c.
Proof. each_byte c. Qed.

Lemma hex_ishex (c : ascii) : ishex (hex_hi c) && ishex (hex_lo c) = true.
Proof. each_byte c. Qed.

Lemma kept_not_special (c : ascii) :
  shouldEscape c encodeQueryComponent || negb (query_special c) = true.
Proof. each_byte c. Qed.

Lemma space_shouldEscape (c : ascii) :
  negb (Ascii.eqb c " ") || shouldEscape c encodeQueryComponent = true.
Proof. each_byte c. Qed.

Lemma hex_not_special (c : ascii) :
  query_special (hex_hi c) || query_special (hex_lo c) = false.
Proof. each_byte c. Qed.

Lemma query_special_eqb (c b : ascii) :
  query_special b = true -> query_special c = false -> Ascii.eqb c b = false.
Proof.
  intros Hb Hc. apply Ascii.eqb_neq. intros ->. congruence.
Qed.

(** The three shapes of an escaped byte. *)
Lemma escape_cons (c : ascii) (s : string) :
  (c = " "%char /\ QueryEscape (String c s) = String "+" (QueryEscape s))
  \/ (c <> " "%char /\ shouldEscape c encodeQueryComponent = true
      /\ QueryEscape (String c s)
         = String "%" (String (hex_hi c) (String (hex_lo c) (QueryEscape s))))
  \/ (shouldEscape c encodeQueryComponent = false /\ query_special c = false
      /\ QueryEscape (String c s) = String c (QueryEscape s)).
Proof.
  unfold QueryEscape. simpl.
  destruct (Ascii.eqb c " ") eqn:Hsp; simpl.
  - left. apply Ascii.eqb_eq in Hsp. auto.
  - right. apply Ascii.eqb_neq in Hsp.
    destruct (shouldEscape c encodeQueryComponent) eqn:Hesc.
    + left. auto.
    + right. pose proof (kept_not_special c) as K. rewrite Hesc in K. simpl in K.
      apply negb_true_iff in K. auto.
Qed.

(** An escaped text holds none of the separators of a query string. *)
Lemma escape_no_special (s : string) (b : ascii) :
  query_special b = true -> b <> "%"%char -> b <> "+"%char ->
  strings_ContainsByte (QueryEscape s) b = false.
Proof.
  intros Hb Hpc Hpl. induction s as [|c s IH]; [reflexivity |].
  destruct (escape_cons c s) as [[_ ->] | [(_ & _ & ->) | (_ & Hc & ->)]]; simpl; rewrite IH.
  - rewrite orb_false_r. apply Ascii.eqb_neq. congruence.
  - pose proof (hex_not_special c) as H. apply orb_false_iff in H as [Hh Hl].
    rewrite (query_special_eqb _ _ Hb Hh), (query_special_eqb _ _ Hb Hl), !orb_false_r.
    apply Ascii.eqb_neq. congruence.
  - rewrite orb_false_r. now apply query_special_eqb.
Qed.

Lemma scan_escape (s : string) (n : nat) (hasPlus : bool) :
  unescape_scan (QueryEscape s) encodeQueryComponent n hasPlus
  = inr ((n + escaped_count s)%nat, hasPlus || has_space s).
Proof.
  revert n hasPlus. induction s as [|c s IH]; intros n hp.
  - simpl. now rewrite Nat.add_0_r, orb_false_r.
  - destruct (escape_cons c s) as [[-> ->] | [(Hsp & Hesc & ->) | (Hesc & Hc & ->)]].
    + simpl. rewrite IH. simpl. now rewrite orb_true_r.
    + apply Ascii.eqb_neq in Hsp.
      pose proof (hex_ishex c) as H. apply andb_true_iff in H as [Hh Hl].
      simpl. rewrite Hh, Hl. simpl. rewrite IH, Hsp, Hesc. simpl.
      f_equal. f_equal. lia.
    + assert (Ascii.eqb c "%" = false) as E1 by (now apply query_special_eqb).
      assert (Ascii.eqb c "+" = false) as E2 by (now apply query_special_eqb).
      assert (Ascii.eqb c " " = false) as E3 by (now apply query_special_eqb).
      simpl. rewrite E1, E2, IH, E3, Hesc. reflexivity.
Qed.

Lemma decode_escape (s : string) :
  unescape_decode (QueryEscape s) encodeQueryComponent = s.
Proof.
  induction s as [|c s IH]; [reflexivity |].
  destruct (escape_cons c s) as [[-> ->] | [(Hsp & Hesc & ->) | (Hesc & Hc & ->)]].
  - simpl. now rewrite IH.
  - simpl. rewrite IH. f_equal. apply hex_roundtrip.
  - assert (Ascii.eqb c "%" = false) as E1 by (now apply query_special_eqb).
    assert (Ascii.eqb c "+" = false) as E2 by (now apply query_special_eqb).
    simpl. now rewrite E1, E2, IH.
Qed.

Lemma escape_plain (s : string) :
  escaped_count s = O -> has_space s = false -> QueryEscape s = s.
Proof.
  induction s as [|c s IH]; [reflexivity |]. simpl. intros Hn Hs.
  apply orb_false_iff in Hs as [Hsp Hs].
  rewrite Hsp in Hn. simpl in Hn.
  destruct (shouldEscape c encodeQueryComponent) eqn:Hesc; [discriminate |].
  unfold QueryEscape in *. simpl. rewrite Hsp, Hesc. simpl. f_equal. now apply IH.
Qed.

(** Unescaping undoes escaping. *)
Lemma QueryUnescape_QueryEscape (s : string) : QueryUnescape (QueryEscape s) = inl s.
Proof.
  unfold QueryUnescape, unescape. rewrite scan_escape. simpl.
  destruct (escaped_count s) as [|k] eqn:Hn; simpl.
  - destruct (has_space s) eqn:Hs; simpl.
    + now rewrite decode_escape.
    + now rewrite escape_plain.
  - now rewrite decode_escape.
Qed.

(** ** Parsing an encoded query *)

Lemma pair_enc_no_byte (kv : string * string) (b : ascii) :
  query_special b = true -> b <> "%"%char -> b <> "+"%char -> b <> "="%char ->
  strings_ContainsByte (pair_enc kv) b = false.
Proof.
  intros Hb H1 H2 H3. unfold pair_enc.
  rewrite !ContainsByte_app, !escape_no_special by assumption.
  simpl. rewrite !orb_false_r. apply Ascii.eqb_neq. congruence.
Qed.

Lemma pair_enc_nonempty (kv : string * string) : String.eqb (pair_enc kv) "" = false.
Proof.
  apply String.eqb_neq. intros H. apply (f_equal String.length) in H.
  unfold pair_enc in H. rewrite !string_app_length in H. simpl in H. lia.
Qed.

Lemma pair_enc_Cut (kv : string * string) :
  strings_Cut (pair_enc kv) "=" = (QueryEscape (fst kv), QueryEscape (snd kv), true).
Proof.
  unfold pair_enc. apply Cut_byte_found. now apply escape_no_special.
Qed.

(** One turn of the loop on a well-formed pair. *)
Lemma parseQuery_step (fuel : nat) (m : Values) (err : option error)
      (kv : string * string) (query rest : string) (found : bool) :
  String.eqb query "" = false ->
  strings_Cut query "&" = (pair_enc kv, rest, found) ->
  parseQuery (S fuel) m err query = parseQuery fuel (add_pair m kv) err rest.
Proof.
  intros Hne Hcut. simpl. rewrite Hne, Hcut.
  rewrite Contains_byte, pair_enc_no_byte by (reflexivity || discriminate).
  rewrite pair_enc_nonempty, pair_enc_Cut, !QueryUnescape_QueryEscape.
  reflexivity.
Qed.

Lemma parseQuery_empty (fuel : nat) (m : Values) (err : option error) :
  parseQuery fuel m err "" = (m, err).
Proof. destruct fuel; reflexivity. Qed.

Lemma Cut_byte_length (s : string) (c : ascii) :
  s <> "" ->
  (String.length (snd (fst (strings_Cut s (String c "")))) < String.length s)%nat.
Proof.
  induction s as [|x s IH]; intros Hne; [congruence |].
  simpl. destruct (Ascii.eqb x c); simpl; [lia |].
  destruct s as [|y s]; [simpl; lia |].
  specialize (IH ltac:(discriminate)).
  destruct (strings_Cut (String y s) (String c "")) as [[a b] found]. simpl in *. lia.
Qed.

(** The loop of [parseQuery] ends within [String.length query] turns: more
    fuel changes nothing. *)
Lemma parseQuery_fuel (fuel : nat) :
  forall (fuel' : nat) (m : Values) (err : option error) (query : string),
  (String.length query <= fuel)%nat -> (String.length query <= fuel')%nat ->
  parseQuery fuel m err query = parseQuery fuel' m err query.
Proof.
  induction fuel as [|fuel IH]; intros fuel' m err query H H'.
  - destruct query; [| simpl in H; lia]. now rewrite !parseQuery_empty.
  - destruct fuel' as [|fuel'].
    + destruct query; [| simpl in H'; lia]. now rewrite !parseQuery_empty.
    + simpl. destruct (String.eqb_spec query "") as [-> | Hne]; [reflexivity |].
      pose proof (Cut_byte_length query "&" Hne) as Hlen.
      destruct (strings_Cut query "&") as [[key query'] found]. simpl in Hlen.
      assert (E : forall m0 err0, parseQuery fuel m0 err0 query' = parseQuery fuel' m0 err0 query')
        by (intros; apply IH; lia).
      rewrite !E.
      destruct (strings_Contains key ";"); [reflexivity |].
      destruct (String.eqb key ""); [reflexivity |].
      destruct (strings_Cut key "=") as [[k v] f].
      destruct (QueryUnescape k); [| now rewrite E].
      destruct (QueryUnescape v); now rewrite E.
Qed.

Lemma Join_cons (e : string) (rest : list string) (sep : string) :
  rest <> [] -> strings_Join (e :: rest) sep = e +:+ sep +:+ strings_Join rest sep.
Proof. destruct rest; [congruence | reflexivity]. Qed.

Lemma parseQuery_pairs (kvs : list (string * string)) :
  forall (fuel : nat) (m : Values) (err : option error),
  (String.length (strings_Join (map pair_enc kvs) "&") <= fuel)%nat ->
  parseQuery fuel m err (strings_Join (map pair_enc kvs) "&")
  = (fold_left add_pair kvs m, err).
Proof.
  induction kvs as [|kv kvs IH]; intros fuel m err Hfuel.
  - apply parseQuery_empty.
  - destruct kvs as [|kv' kvs].
    + simpl in *. destruct fuel as [|fuel].
      { pose proof (pair_enc_nonempty kv) as H. apply String.eqb_neq in H.
        destruct (pair_enc kv); [congruence | simpl in Hfuel; lia]. }
      rewrite (parseQuery_step fuel m err kv _ "" false).
      * apply parseQuery_empty.
      * apply pair_enc_nonempty.
      * apply Cut_byte_none. now apply pair_enc_no_byte.
    + change (map pair_enc (kv :: kv' :: kvs)) with (pair_enc kv :: map pair_enc (kv' :: kvs)) in *.
      rewrite Join_cons in * by discriminate.
      rewrite !string_app_length in Hfuel. change (String.length "&") with 1%nat in Hfuel.
      destruct fuel as [|fuel]; [lia |].
      rewrite (parseQuery_step fuel m err kv _ (strings_Join (map pair_enc (kv' :: kvs)) "&") true).
      * rewrite IH; [reflexivity | lia].
      * apply String.eqb_neq. intros H. apply (f_equal String.length) in H.
        rewrite !string_app_length in H. simpl in H. lia.
      * apply Cut_byte_found. now apply pair_enc_no_byte.
Qed.

(** ** What [Encode] writes *)

Lemma Encode_key_pairs (v : Values) (k : string) (buf : string) :
  Encode_key v buf k
  = fold_left join_step (map pair_enc (map (fun x => (k, x)) (default [] (v !! k)))) buf.
Proof.
  unfold Encode_key. generalize (default [] (v !! k)). intros vs. revert buf.
  induction vs as [|x vs IH]; intros buf; [reflexivity |].
  simpl. rewrite IH. reflexivity.
Qed.

Lemma Encode_keys_pairs (v : Values) (keys : list string) (buf : string) :
  fold_left (Encode_key v) keys buf
  = fold_left join_step (map pair_enc (pairs_of v keys)) buf.
Proof.
  revert buf. induction keys as [|k keys IH]; intros buf; [reflexivity |].
  simpl. rewrite IH, Encode_key_pairs.
  unfold pairs_of. simpl. rewrite map_app, fold_left_app. reflexivity.
Qed.

Lemma join_step_nonempty (buf : string) (kv : string * string) :
  String.eqb (join_step buf (pair_enc kv)) "" = false.
Proof.
  apply String.eqb_neq. intros H. apply (f_equal String.length) in H.
  unfold join_step in H. rewrite string_app_length in H.
  pose proof (pair_enc_nonempty kv) as Hp. apply String.eqb_neq in Hp.
  destruct (pair_enc kv); [congruence | simpl in H; lia].
Qed.

Lemma fold_join_step (kvs : list (string * string)) (buf : string) :
  String.eqb buf "" = false -> kvs <> [] ->
  fold_left join_step (map pair_enc kvs) buf
  = buf +:+ "&" +:+ strings_Join (map pair_enc kvs) "&".
Proof.
  revert buf. induction kvs as [|kv kvs IH]; intros buf Hbuf Hne; [congruence |].
  destruct kvs as [|kv' kvs].
  - simpl. unfold join_step. rewrite Hbuf. now rewrite string_app_assoc.
  - change (map pair_enc (kv :: kv' :: kvs)) with (pair_enc kv :: map pair_enc (kv' :: kvs)).
    rewrite Join_cons by discriminate.
    change (fold_left join_step (pair_enc kv :: map pair_enc (kv' :: kvs)) buf)
      with (fold_left join_step (map pair_enc (kv' :: kvs)) (join_step buf (pair_enc kv))).
    rewrite IH by (apply join_step_nonempty || discriminate).
    unfold join_step. rewrite Hbuf. now rewrite !string_app_assoc.
Qed.

Lemma Encode_Join (v : Values) :
  Values_Encode v = strings_Join (map pair_enc (pairs_of v (sorted_keys v))) "&".
Proof.
  unfold Values_Encode. rewrite Encode_keys_pairs.
  destruct (pairs_of v (sorted_keys v)) as [|kv kvs]; [reflexivity |].
  destruct kvs as [|kv' kvs]; [reflexivity |].
  change (map pair_enc (kv :: kv' :: kvs)) with (pair_enc kv :: map pair_enc (kv' :: kvs)).
  rewrite Join_cons by discriminate.
  change (fold_left join_step (pair_enc kv :: map pair_enc (kv' :: kvs)) "")
      with (fold_left join_step (map pair_enc (kv' :: kvs)) (join_step "" (pair_enc kv))).
  rewrite fold_join_step by (apply join_step_nonempty || discriminate).
  reflexivity.
Qed.

(** ** Query values *)

Lemma values_wf_empty : values_wf ∅.
Proof. intros k vs H. rewrite lookup_empty in H. discriminate. Qed.

Lemma values_wf_Add (v : Values) (key value : string) :
  values_wf v -> values_wf (Values_Add v key value).
Proof.
  intros Hv k vs. unfold Values_Add. rewrite lookup_insert. case_decide.
  - intros [= <-]. now destruct (default [] (v !! key)).
  - apply Hv.
Qed.

Lemma values_wf_parseQuery (fuel : nat) :
  forall (m : Values) (err : option error) (query : string),
  values_wf m -> values_wf (fst (parseQuery fuel m err query)).
Proof.
  induction fuel as [|fuel IH]; intros m err query Hm; [exact Hm |].
  simpl. destruct (String.eqb query ""); [exact Hm |].
  destruct (strings_Cut query "&") as [[key query'] found].
  destruct (strings_Contains key ";"); [now apply IH |].
  destruct (String.eqb key ""); [now apply IH |].
  destruct (strings_Cut key "=") as [[key' value] found'].
  destruct (QueryUnescape key') as [k | e]; [| now apply IH].
  destruct (QueryUnescape value) as [x | e]; [| now apply IH].
  apply IH. now apply values_wf_Add.
Qed.

Lemma values_wf_Query (u : url_URL) : values_wf (URL_Query u).
Proof. apply values_wf_parseQuery, values_wf_empty. Qed.

Lemma Values_Add_lookup (v : Values) (key value k : string) :
  Values_Add v key value !! k
  = if decide (key = k) then Some (default [] (v !! key) ++ [value]) else v !! k.
Proof. unfold Values_Add. apply lookup_insert. Qed.

(** Adding the values of one key, in order. *)
Lemma fold_add_key (k : string) (vs : list string) (acc : Values) :
  fold_left add_pair (map (fun x => (k, x)) vs) acc
  = match vs with
    | [] => acc
    | _ => <[k := default [] (acc !! k) ++ vs]> acc
    end.
Proof.
  revert acc. induction vs as [|x vs IH]; intros acc; [reflexivity |].
  simpl. rewrite IH. unfold add_pair, Values_Add. simpl.
  destruct vs as [|y vs]; [reflexivity |].
  rewrite lookup_insert_eq, insert_insert_eq. simpl.
  now rewrite <- app_assoc.
Qed.

Lemma fold_add_pairs_lookup (v : Values) (keys : list string) :
  forall acc : Values,
  NoDup keys -> (forall k, k ∈ keys -> acc !! k = None) ->
  forall k,
  fold_left add_pair (pairs_of v keys) acc !! k
  = if decide (k ∈ keys)
    then match default [] (v !! k) with [] => None | vs => Some vs end
    else acc !! k.
Proof.
  induction keys as [|k0 keys IH]; intros acc Hnd Hacc k.
  - rewrite decide_False by (intros H; inversion H). reflexivity.
  - apply NoDup_cons in Hnd as [Hk0 Hnd].
    unfold pairs_of. simpl. rewrite fold_left_app, fold_add_key.
    fold (pairs_of v keys).
    set (acc1 := match default [] (v !! k0) with
                 | [] => acc
                 | _ => <[k0 := default [] (acc !! k0) ++ default [] (v !! k0)]> acc
                 end).
    assert (Hlk : forall j, j <> k0 -> acc1 !! j = acc !! j).
    { intros j Hj. unfold acc1. destruct (default [] (v !! k0)); [reflexivity |].
      now rewrite lookup_insert_ne. }
    rewrite IH; [| assumption |].
    + destruct (decide (k ∈ keys)) as [Hin | Hnin].
      * rewrite decide_True by (now right). reflexivity.
      * destruct (decide (k = k0)) as [-> | Hne].
        -- rewrite decide_True by (now left). unfold acc1.
           rewrite (Hacc k0) by (now left). simpl.
           destruct (default [] (v !! k0)) eqn:E.
           ++ apply Hacc. now left.
           ++ now rewrite lookup_insert_eq.
        -- rewrite decide_False.
           ++ now apply Hlk.
           ++ intros H. apply elem_of_cons in H as [H | H]; contradiction.
    + intros j Hj. rewrite Hlk.
      * apply Hacc. now right.
      * intros ->. contradiction.
Qed.

Lemma elem_of_sorted_keys (v : Values) (k : string) :
  k ∈ sorted_keys v <-> is_Some (v !! k).
Proof.
  unfold sorted_keys. rewrite merge_sort_Permutation, list_elem_of_fmap. split.
  - intros [[k' vs] [-> H]]. apply elem_of_map_to_list in H. simpl. eauto.
  - intros [vs H]. exists (k, vs). split; [reflexivity |]. now apply elem_of_map_to_list.
Qed.

Lemma NoDup_sorted_keys (v : Values) : NoDup (sorted_keys v).
Proof.
  unfold sorted_keys. rewrite merge_sort_Permutation. apply NoDup_fst_map_to_list.
Qed.

(** Reading back what [Encode] wrote gives the values again, without error. *)
Theorem ParseQuery_Encode (v : Values) :
  values_wf v -> ParseQuery (Values_Encode v) = (v, None).
Proof.
  intros Hv. unfold ParseQuery. rewrite Encode_Join.
  rewrite parseQuery_pairs by reflexivity. f_equal.
  apply map_eq. intros k.
  rewrite fold_add_pairs_lookup.
  - case_decide as Hin.
    + apply elem_of_sorted_keys in Hin as [vs Hvs]. rewrite Hvs. simpl.
      specialize (Hv _ _ Hvs). now destruct vs.
    + rewrite lookup_empty. symmetry. apply eq_None_not_Some.
      intros H. apply Hin. now apply elem_of_sorted_keys.
  - apply NoDup_sorted_keys.
  - intros j _. apply lookup_empty.
Qed.

Corollary Query_Encode (u : url_URL) (v : Values) :
  values_wf v -> URL_Query (URL_set_RawQuery u (Values_Encode v)) = v.
Proof. intros Hv. unfold URL_Query. simpl. now rewrite ParseQuery_Encode. Qed.

(** ** Adding parameters to a query *)

Lemma valuesOf_fold_add (params : list (string * string)) :
  forall (q : Values) (k : string),
  valuesOf (fold_left add_pair params q) k = valuesOf q k ++ paramValues k params.
Proof.
  induction params as [|[k' v'] params IH]; intros q k.
  - simpl. unfold paramValues. simpl. now rewrite app_nil_r.
  - simpl. rewrite IH. unfold paramValues, valuesOf, add_pair. simpl.
    rewrite Values_Add_lookup.
    destruct (decide (k' = k)) as [-> | Hne].
    + rewrite String.eqb_refl. simpl. now rewrite <- app_assoc.
    + apply String.eqb_neq in Hne. now rewrite Hne.
Qed.

Lemma lookup_fold_add_other (params : list (string * string)) :
  forall (q : Values) (k : string),
  paramValues k params = [] -> fold_left add_pair params q !! k = q !! k.
Proof.
  induction params as [|[k' v'] params IH]; intros q k Hk; [reflexivity |].
  unfold paramValues in Hk. simpl in Hk.
  destruct (String.eqb k' k) eqn:E; [discriminate |].
  simpl. rewrite IH by exact Hk.
  unfold add_pair. simpl. rewrite Values_Add_lookup.
  apply String.eqb_neq in E. now rewrite decide_False.
Qed.

Lemma paramValues_cons (k k' v : string) (params : list (string * string)) :
  paramValues k ((k', v) :: params)
  = if String.eqb k' k then v :: paramValues k params else paramValues k params.
Proof. unfold paramValues. cbn [List.filter fst]. now destruct (String.eqb k' k). Qed.

Lemma paramValues_app (k : string) (ps qs : list (string * string)) :
  paramValues k (ps ++ qs) = paramValues k ps ++ paramValues k qs.
Proof. unfold paramValues. now rewrite List.filter_app, map_app. Qed.

Lemma lookup_fold_add (params : list (string * string)) :
  forall (q : Values) (k : string),
  fold_left add_pair params q !! k
  = match paramValues k params with
    | [] => q !! k
    | vs => Some (valuesOf q k ++ vs)
    end.
Proof.
  induction params as [|[k' v'] params IH]; intros q k; [reflexivity |].
  simpl. rewrite IH. unfold paramValues, valuesOf, add_pair. simpl.
  rewrite Values_Add_lookup.
  destruct (decide (k' = k)) as [-> | Hne].
  - rewrite String.eqb_refl. simpl.
    destruct (map snd (List.filter _ params)); simpl; now rewrite <- ?app_assoc.
  - apply String.eqb_neq in Hne. now rewrite Hne.
Qed.

Lemma values_wf_fold_add (params : list (string * string)) (q : Values) :
  values_wf q -> values_wf (fold_left add_pair params q).
Proof.
  revert q. induction params as [|kv params IH]; intros q Hq; [exact Hq |].
  simpl. apply IH. now apply values_wf_Add.
Qed.

Lemma hasParam_fold_add (params : list (string * string)) (q : Values) (k v : string) :
  In (k, v) params -> hasParam (fold_left add_pair params q) k v.
Proof.
  intros Hin. unfold hasParam. rewrite valuesOf_fold_add.
  apply in_or_app. right. unfold paramValues.
  apply (in_map snd _ (k, v)). apply filter_In. split; [exact Hin |].
  simpl. apply String.eqb_refl.
Qed.

(** ** The request a call builds *)

Section Requests.
Context {L : GoLibrary}.

Lemma prepareRequest_params (c : DNSClient) (req : Request) (cmd uniqueId : string) :
  prepareRequest c req cmd uniqueId
  = mkRequest (Method req)
      (URL_set_RawQuery (URL req)
         (Values_Encode (fold_left add_pair (preparedParams c cmd uniqueId) (URL_Query (URL req)))))
      (Header_Set (Req_Header req) "User-Agent" agentString) (Req_Host req).
Proof.
  unfold prepareRequest, preparedParams.
  destruct (String.eqb uniqueId ""); reflexivity.
Qed.

Lemma prepareRequest_Query (c : DNSClient) (req : Request) (cmd uniqueId : string) :
  URL_Query (URL (prepareRequest c req cmd uniqueId))
  = fold_left add_pair (preparedParams c cmd uniqueId) (URL_Query (URL req)).
Proof.
  rewrite prepareRequest_params.
  change (URL (mkRequest ?m ?u ?h ?o)) with u.
  apply Query_Encode, values_wf_fold_add, values_wf_Query.
Qed.

Lemma addToReq_valid (r : DNSRecordValue) (req : Request) :
  validRecord r ->
  addToReq r req
  = (mkRequest (Method req)
       (URL_set_RawQuery (URL req)
          (Values_Encode (fold_left add_pair (recordParams r) (URL_Query (URL req)))))
       (Req_Header req) (Req_Host req), None).
Proof.
  intros (Hn & Ht & Hv). unfold addToReq.
  apply String.eqb_neq in Hn, Ht, Hv. rewrite Hn, Ht, Hv. reflexivity.
Qed.

Lemma addToReq_firstEmpty (r : DNSRecordValue) (req : Request) (f : Field) :
  firstEmpty r f ->
  addToReq r req = (req, Some (errors_New (fieldName f +:+ " must not be empty"))).
Proof.
  intros [He Hb]. unfold addToReq.
  destruct f; simpl in *.
  - rewrite He. reflexivity.
  - apply String.eqb_neq in Hb. rewrite Hb, He. reflexivity.
  - destruct Hb as [Hn Ht]. apply String.eqb_neq in Hn, Ht. rewrite Hn, Ht, He. reflexivity.
Qed.

(** [addToReq] succeeds on valid records only. *)
Lemma addToReq_None_valid (r : DNSRecordValue) (req req' : Request) :
  addToReq r req = (req', None) -> validRecord r.
Proof.
  unfold addToReq, validRecord.
  destruct (String.eqb (Name r) "") eqn:Hn; [discriminate |].
  destruct (String.eqb (RecordType r) "") eqn:Ht; [discriminate |].
  destruct (String.eqb (Value r) "") eqn:Hv; [discriminate |].
  intros _. now apply String.eqb_neq in Hn, Ht, Hv.
Qed.

(** The command shows in the values of [cmd] only. *)
Lemma paramValues_command (c : DNSClient) (r : DNSRecordValue) (cmd cmd' uniqueId k : string) :
  k <> "cmd" ->
  paramValues k (preparedParams c cmd uniqueId ++ recordParams r)
  = paramValues k (preparedParams c cmd' uniqueId ++ recordParams r).
Proof.
  intros Hk. assert (String.eqb "cmd" k = false) as E by (apply String.eqb_neq; congruence).
  unfold preparedParams. rewrite !paramValues_app, !paramValues_cons, E. reflexivity.
Qed.

(** The error of [addToReq] depends on the record alone. *)
Lemma addToReq_error (r : DNSRecordValue) (req req' : Request) :
  snd (addToReq r req) = snd (addToReq r req').
Proof.
  unfold addToReq.
  destruct (String.eqb (Name r) ""); [reflexivity |].
  destruct (String.eqb (RecordType r) ""); [reflexivity |].
  destruct (String.eqb (Value r) ""); reflexivity.
Qed.

(** The query of the request a call sends: the query that came with the URL,
    then the prepared parameters, then those of the record. *)
Lemma built_Query (c : DNSClient) (r : DNSRecordValue) (cmd uniqueId : string)
      (req0 req : Request) :
  addToReq r (prepareRequest c req0 cmd uniqueId) = (req, None) ->
  URL_Query (URL req)
  = fold_left add_pair (preparedParams c cmd uniqueId ++ recordParams r) (URL_Query (URL req0))
  /\ sameButQuery req (prepareRequest c req0 cmd uniqueId).
Proof.
  intros H. pose proof (addToReq_None_valid _ _ _ H) as Hvalid.
  rewrite (addToReq_valid _ _ Hvalid) in H. injection H as <-.
  set (p := prepareRequest c req0 cmd uniqueId).
  split.
  - change (URL_Query
              (URL_set_RawQuery (URL p)
                 (Values_Encode (fold_left add_pair (recordParams r) (URL_Query (URL p)))))
            = fold_left add_pair (preparedParams c cmd uniqueId ++ recordParams r)
                (URL_Query (URL req0))).
    rewrite Query_Encode by apply values_wf_fold_add, values_wf_Query.
    unfold p. now rewrite prepareRequest_Query, fold_left_app.
  - repeat split.
Qed.

Lemma prepareRequest_sameTarget (c : DNSClient) (req : Request) (cmd uniqueId : string) :
  sameTarget (prepareRequest c req cmd uniqueId) req.
Proof. rewrite prepareRequest_params. repeat split. Qed.

Lemma sameTarget_trans (a b c : Request) : sameTarget a b -> sameTarget b c -> sameTarget a c.
Proof.
  intros (A1 & A2 & A3) (B1 & B2 & B3). repeat split; congruence.
Qed.

(** Where a call that got a response from the HTTP client goes on. *)
Lemma sendRequest_exchange (c : DNSClient) (r : DNSRecordValue) (cmd uniqueId : string)
      (req0 req : Request) (resp : Response) :
  exchange c r cmd uniqueId req0 req resp ->
  sendRequest c r cmd uniqueId
  = if (StatusCode resp <? 200)%Z || (StatusCode resp >=? 300)%Z then
      (None,
       Some (errorString ("dreamhost API returned unexpected status code "
                          +:+ fmt_Sprint_int (StatusCode resp))),
       [EvDo req; EvClose])
    else
      match Body resp with
      | inr err =>
          (None, Some (fmt_Errorf_w "failed to read HTTP body: " err),
           [EvDo req; EvReadAll; EvClose])
      | inl body =>
          match json_Unmarshal body with
          | inr err =>
              (None, Some (fmt_Errorf_w "failed to parse response: " err),
               [EvDo req; EvReadAll; EvClose])
          | inl apiResp =>
              if negb (String.eqb (Result apiResp) "success") then
                (Some apiResp,
                 Some (errorString ("dreamhost API returned non-successful result: "
                                    +:+ fmt_Sprint_DreamhostResponse apiResp)),
                 [EvDo req; EvReadAll; EvClose])
              else (Some apiResp, None, [EvDo req; EvReadAll; EvClose])
          end
      end.
Proof.
  intros (H0 & H1 & H2). unfold sendRequest. cbv zeta.
  rewrite H0, H1, H2. reflexivity.
Qed.

(** The requests a call hands to the HTTP client: the one it built, if it
    got that far, and no other. *)
Lemma sendRequest_sent (c : DNSClient) (r : DNSRecordValue) (cmd uniqueId : string) :
  sent (snd (sendRequest c r cmd uniqueId))
  = match http_NewRequest "GET" (requestURL c) with
    | inl req0 =>
        match addToReq r (prepareRequest c req0 cmd uniqueId) with
        | (req, None) => [req]
        | (_, Some _) => []
        end
    | inr _ => []
    end.
Proof.
  unfold sendRequest. cbv zeta.
  destruct (http_NewRequest "GET" (requestURL c)) as [req0 | e]; [| reflexivity].
  destruct (addToReq r (prepareRequest c req0 cmd uniqueId)) as [req [e |]]; [reflexivity |].
  destruct (Transport (client c) req) as [resp | e]; [| reflexivity].
  destruct ((StatusCode resp <? 200)%Z || (StatusCode resp >=? 300)%Z); [reflexivity |].
  destruct (Body resp) as [body | e]; [| reflexivity].
  destruct (json_Unmarshal body) as [apiResp | e]; [| reflexivity].
  destruct (negb (String.eqb (Result apiResp) "success")); reflexivity.
Qed.

Lemma callPath_events (c : DNSClient) (r : DNSRecordValue) (cmd uniqueId : string) :
  snd (callPath cmd c r uniqueId) = snd (sendRequest c r cmd uniqueId).
Proof.
  unfold callPath. now destruct (sendRequest c r cmd uniqueId) as [[resp err] events].
Qed.

Lemma sent_origin (c : DNSClient) (r : DNSRecordValue) (cmd uniqueId : string) (req : Request) :
  In req (sent (snd (sendRequest c r cmd uniqueId))) ->
  exists req0, http_NewRequest "GET" (requestURL c) = inl req0 /\ sameTarget req req0.
Proof.
  rewrite sendRequest_sent.
  destruct (http_NewRequest "GET" (requestURL c)) as [req0 | e]; [| intros []].
  destruct (addToReq r (prepareRequest c req0 cmd uniqueId)) as [req' [e |]] eqn:Hadd;
    [intros [] |].
  intros [<- | []]. exists req0. split; [reflexivity |].
  destruct (built_Query _ _ _ _ _ _ Hadd) as [_ [Hsame _]].
  eapply sameTarget_trans; [exact Hsame | apply prepareRequest_sameTarget].
Qed.

Lemma perform_callPath (op : Operation) (c : DNSClient) (r : DNSRecordValue)
      (uniqueId : string) :
  perform op c r uniqueId = callPath (command op) c r uniqueId.
Proof. destruct op; reflexivity. Qed.

Lemma status2xx_test (resp : Response) :
  status2xx resp -> (StatusCode resp <? 200)%Z || (StatusCode resp >=? 300)%Z = false.
Proof.
  intros [H1 H2]. apply orb_false_iff. split.
  - apply Z.ltb_ge. exact H1.
  - rewrite Z.geb_leb. apply Z.leb_gt. exact H2.
Qed.

End Requests.

End LibraryLemmas.

(** * Properties of the client *)

Section Claims.
Context {L : GoLibrary}.

(** C1.  The suppression rule.  Whatever the request path returned for a
    call of [CreateRecord] or [DeleteRecord]: when it returned a response and
    an error together and the response's data field is
    ["unique_id_already_used"], the operation returns no error; in every other
    case it returns the error of the request path as it is. *)
Theorem C1_suppression_rule (op : Operation) (c : DNSClient) (r : DNSRecordValue)
        (uniqueId : string) (resp : option DreamhostResponse) (err : option error)
        (events : list Event) :
  sendRequest c r (command op) uniqueId = (resp, err, events) ->
  (suppressible resp err /\ perform op c r uniqueId = (None, events))
  \/ (~ suppressible resp err /\ perform op c r uniqueId = (err, events)).
Proof.
  intros H. rewrite perform_callPath. unfold callPath. rewrite H.
  destruct err as [e |], resp as [resp' |]; simpl.
  - destruct (String.eqb (Data resp') "unique_id_already_used") eqn:E.
    + left. apply String.eqb_eq in E. split; [| reflexivity].
      exists resp', e. auto.
    + right. apply String.eqb_neq in E. split; [| reflexivity].
      intros (x & y & [= <-] & _ & Hd). contradiction.
  - right. split; [| reflexivity]. intros (x & y & Hx & _). discriminate.
  - right. split; [| reflexivity]. intros (x & y & _ & Hy & _). discriminate.
  - right. split; [| reflexivity]. intros (x & y & _ & Hy & _). discriminate.
Qed.

(** C2, as the code has it.  For a record value whose first empty field is
    [f], no request is handed to the HTTP client.  The request is created
    before the record is looked at: when [http.NewRequest] makes one, the
    operation returns the error of field [f], whose message names [f] and no
    other field; when it makes none, the operation returns the error "failed
    to create request" wrapping the cause, not the error of a field. *)
Theorem C2_validation_is_local (op : Operation) (c : DNSClient) (r : DNSRecordValue)
        (uniqueId : string) (f : Field) :
  firstEmpty r f ->
  sent (snd (perform op c r uniqueId)) = []
  /\ (forall req0, http_NewRequest "GET" (requestURL c) = inl req0 ->
      perform op c r uniqueId
      = (Some (errors_New (fieldName f +:+ " must not be empty")), []))
  /\ (forall cause, http_NewRequest "GET" (requestURL c) = inr cause ->
      perform op c r uniqueId
      = (Some (fmt_Errorf_w "failed to create request: " cause), []))
  /\ (forall g, strings_Contains (fieldName f +:+ " must not be empty") (fieldName g) = true
                -> g = f).
Proof.
  intros Hf. rewrite perform_callPath. unfold callPath, sendRequest. cbv zeta.
  split; [| split; [| split]].
  - destruct (http_NewRequest "GET" (requestURL c)) as [req0 | e]; [| reflexivity].
    rewrite (addToReq_firstEmpty _ _ _ Hf). reflexivity.
  - intros req0 ->. rewrite (addToReq_firstEmpty _ _ _ Hf). reflexivity.
  - intros cause ->. reflexivity.
  - intros g. destruct f, g; vm_compute; congruence.
Qed.

(** The keys the call adds values to. *)
Lemma paramValues_untouched (c : DNSClient) (r : DNSRecordValue) (cmd uniqueId k : string) :
  ~ In k ["key"; "cmd"; "format"; "unique_id"; "record"; "type"; "value"] ->
  paramValues k (preparedParams c cmd uniqueId ++ recordParams r) = [].
Proof.
  intros Hk.
  assert (E : forall k', In k' ["key"; "cmd"; "format"; "unique_id"; "record"; "type"; "value"]
                         -> String.eqb k' k = false).
  { intros k' Hin. apply String.eqb_neq. intros ->. contradiction. }
  unfold preparedParams, recordParams.
  rewrite !paramValues_app, !paramValues_cons.
  rewrite !E by (simpl; tauto).
  destruct (String.eqb uniqueId ""); [reflexivity |].
  rewrite paramValues_cons, E by (simpl; tauto). reflexivity.
Qed.

(** C3, as the code has it.  For a valid record value and a request
    [req0] that [http.NewRequest] made from the URL text of the client, the
    operation hands exactly one request to the HTTP client.  In its query
    string each of key, cmd, format, record, type and value has the values it
    had in the query string of [req0], followed by the API key, the command,
    json, the name, the record type and the payload; unique_id has the values
    it had in [req0], followed by the caller's identifier when that is not
    empty and by nothing when it is; every other parameter is as in [req0].
    So the request holds the six parameters, holds unique_id with the
    identifier when that is not empty, and holds no unique_id at all when
    the identifier is empty and [req0] has none. *)
Theorem C3_request_parameters (op : Operation) (c : DNSClient) (r : DNSRecordValue)
        (uniqueId : string) (req0 : Request) :
  validRecord r ->
  http_NewRequest "GET" (requestURL c) = inl req0 ->
  exists req,
    sent (snd (perform op c r uniqueId)) = [req]
    /\ sameTarget req req0
    /\ let q := URL_Query (URL req) in
       let q0 := URL_Query (URL req0) in
       (valuesOf q "key" = valuesOf q0 "key" ++ [apiKey c]
        /\ valuesOf q "cmd" = valuesOf q0 "cmd" ++ [command op]
        /\ valuesOf q "format" = valuesOf q0 "format" ++ ["json"]
        /\ valuesOf q "record" = valuesOf q0 "record" ++ [Name r]
        /\ valuesOf q "type" = valuesOf q0 "type" ++ [RecordType r]
        /\ valuesOf q "value" = valuesOf q0 "value" ++ [Value r]
        /\ (forall k, ~ In k ["key"; "cmd"; "format"; "unique_id"; "record"; "type"; "value"]
                      -> q !! k = q0 !! k))
       /\ hasParam q "key" (apiKey c) /\ hasParam q "cmd" (command op)
       /\ hasParam q "format" "json" /\ hasParam q "record" (Name r)
       /\ hasParam q "type" (RecordType r) /\ hasParam q "value" (Value r)
       /\ valuesOf q "unique_id"
          = valuesOf q0 "unique_id" ++ (if String.eqb uniqueId "" then [] else [uniqueId])
       /\ (uniqueId <> "" -> hasParam q "unique_id" uniqueId)
       /\ (uniqueId = "" -> q !! "unique_id" = q0 !! "unique_id")
       /\ (uniqueId = "" -> q0 !! "unique_id" = None -> queryAsSpecified c r (command op) uniqueId q).
Proof.
  intros Hvalid Hreq.
  pose proof (addToReq_valid r (prepareRequest c req0 (command op) uniqueId) Hvalid) as Hadd.
  set (req := fst (addToReq r (prepareRequest c req0 (command op) uniqueId))).
  assert (Hadd' : addToReq r (prepareRequest c req0 (command op) uniqueId) = (req, None)).
  { unfold req. rewrite Hadd. reflexivity. }
  destruct (built_Query _ _ _ _ _ _ Hadd') as [Hq [Hsame _]].
  exists req. split; [| split].
  - now rewrite perform_callPath, callPath_events, sendRequest_sent, Hreq, Hadd'.
  - eapply sameTarget_trans; [exact Hsame | apply prepareRequest_sameTarget].
  - cbv zeta. rewrite Hq.
    set (params := preparedParams c (command op) uniqueId ++ recordParams r).
    set (q0 := URL_Query (URL req0)).
    assert (Hkey : forall k v, In (k, v) params -> hasParam (fold_left add_pair params q0) k v)
      by (intros k v; apply hasParam_fold_add).
    assert (Hvals : forall k vs,
               paramValues k params = vs ->
               valuesOf (fold_left add_pair params q0) k = valuesOf q0 k ++ vs)
      by (intros k vs <-; apply valuesOf_fold_add).
    assert (Huid : valuesOf (fold_left add_pair params q0) "unique_id"
                   = valuesOf q0 "unique_id"
                     ++ (if String.eqb uniqueId "" then [] else [uniqueId])).
    { apply Hvals. unfold params, preparedParams, paramValues.
      destruct (String.eqb uniqueId ""); reflexivity. }
    assert (Hnone : uniqueId = "" ->
                    fold_left add_pair params q0 !! "unique_id" = q0 !! "unique_id").
    { intros ->. apply lookup_fold_add_other. reflexivity. }
    assert (Hwith : uniqueId <> "" -> hasParam (fold_left add_pair params q0) "unique_id" uniqueId).
    { intros Hne. unfold hasParam. rewrite Huid. apply String.eqb_neq in Hne. rewrite Hne.
      apply in_or_app. right. now left. }
    assert (Hin : forall k v, In (k, v) (preparedParams c (command op) "" ++ recordParams r)
                              -> In (k, v) params).
    { intros k v. unfold params, preparedParams. rewrite !in_app_iff. simpl. tauto. }
    assert (H6 : hasParam (fold_left add_pair params q0) "key" (apiKey c)
                 /\ hasParam (fold_left add_pair params q0) "cmd" (command op)
                 /\ hasParam (fold_left add_pair params q0) "format" "json"
                 /\ hasParam (fold_left add_pair params q0) "record" (Name r)
                 /\ hasParam (fold_left add_pair params q0) "type" (RecordType r)
                 /\ hasParam (fold_left add_pair params q0) "value" (Value r))
      by (repeat split; apply Hkey, Hin; simpl; tauto).
    destruct H6 as (K1 & K2 & K3 & K4 & K5 & K6).
    assert (Hafter : valuesOf (fold_left add_pair params q0) "key"
                     = valuesOf q0 "key" ++ [apiKey c]
                     /\ valuesOf (fold_left add_pair params q0) "cmd"
                        = valuesOf q0 "cmd" ++ [command op]
                     /\ valuesOf (fold_left add_pair params q0) "format"
                        = valuesOf q0 "format" ++ ["json"]
                     /\ valuesOf (fold_left add_pair params q0) "record"
                        = valuesOf q0 "record" ++ [Name r]
                     /\ valuesOf (fold_left add_pair params q0) "type"
                        = valuesOf q0 "type" ++ [RecordType r]
                     /\ valuesOf (fold_left add_pair params q0) "value"
                        = valuesOf q0 "value" ++ [Value r]
                     /\ (forall k,
                         ~ In k ["key"; "cmd"; "format"; "unique_id"; "record"; "type"; "value"]
                         -> fold_left add_pair params q0 !! k = q0 !! k)).
    { repeat split;
        try (apply Hvals; unfold params, preparedParams, paramValues;
             destruct (String.eqb uniqueId ""); reflexivity).
      intros k Hk. apply lookup_fold_add_other. now apply paramValues_untouched. }
    split; [exact Hafter |].
    repeat split; try assumption.
    intros _. rewrite Hnone; assumption.
Qed.

(** C4.  A response with a 2xx status whose body parses and whose result
    field is not ["success"]: the request path returns the parsed response,
    not nil, together with an error whose message contains "dreamhost API
    returned non-successful result" and prints the response after it. *)
Theorem C4_non_success_keeps_response (c : DNSClient) (r : DNSRecordValue)
        (cmd uniqueId : string) (req0 req : Request) (resp : Response)
        (body : string) (apiResp : DreamhostResponse) :
  exchange c r cmd uniqueId req0 req resp ->
  status2xx resp ->
  Body resp = inl body ->
  json_Unmarshal body = inl apiResp ->
  Result apiResp <> "success" ->
  exists e,
    sendRequest c r cmd uniqueId = (Some apiResp, Some e, [EvDo req; EvReadAll; EvClose])
    /\ strings_Contains (Error e) "dreamhost API returned non-successful result" = true
    /\ Error e = "dreamhost API returned non-successful result: "
                 +:+ fmt_Sprint_DreamhostResponse apiResp.
Proof.
  intros Hex Hst Hbody Hjson Hres.
  rewrite (sendRequest_exchange _ _ _ _ _ _ _ Hex), (status2xx_test _ Hst), Hbody, Hjson.
  apply String.eqb_neq in Hres. rewrite Hres. simpl.
  eexists. split; [reflexivity |]. split; [| reflexivity].
  exact (Contains_prefix "dreamhost API returned non-successful result"
           (": " +:+ fmt_Sprint_DreamhostResponse apiResp)).
Qed.

(** C5.  A response whose status is outside 200..299: the request path
    returns no response and the error "dreamhost API returned unexpected
    status code N", N the status in decimal, and so does the operation.  The
    body plays no part: it is not read. *)
Theorem C5_status_before_body (op : Operation) (c : DNSClient) (r : DNSRecordValue)
        (uniqueId : string) (req0 req : Request) (resp : Response) :
  exchange c r (command op) uniqueId req0 req resp ->
  ~ status2xx resp ->
  exists e,
    sendRequest c r (command op) uniqueId = (None, Some e, [EvDo req; EvClose])
    /\ perform op c r uniqueId = (Some e, [EvDo req; EvClose])
    /\ Error e = "dreamhost API returned unexpected status code "
                 +:+ fmt_Sprint_int (StatusCode resp)
    /\ strings_Contains (Error e)
         ("dreamhost API returned unexpected status code "
          +:+ fmt_Sprint_int (StatusCode resp)) = true.
Proof.
  intros Hex Hst.
  assert (Htest : (StatusCode resp <? 200)%Z || (StatusCode resp >=? 300)%Z = true).
  { unfold status2xx in Hst. apply orb_true_iff.
    destruct (Z.ltb_spec (StatusCode resp) 200) as [Hlt | Hge]; [now left | right].
    rewrite Z.geb_leb. apply Z.leb_le. lia. }
  pose proof (sendRequest_exchange _ _ _ _ _ _ _ Hex) as Hsend. rewrite Htest in Hsend.
  eexists. split; [exact Hsend |]. split; [| split].
  - rewrite perform_callPath. unfold callPath. rewrite Hsend. reflexivity.
  - reflexivity.
  - apply Contains_refl.
Qed.

(** C6.  [NewClient] returns no client and an error when the API key is
    empty, and when a base URL is given that does not parse; it never returns
    a client together with an error. *)
Theorem C6_NewClient_errors (apiKey : string) (httpClient : option http_Client)
        (baseUrl : string) :
  (apiKey = "" ->
   NewClient apiKey httpClient baseUrl = (None, Some (errors_New "empty apiKey")))
  /\ (forall err, baseUrl <> "" -> url_Parse baseUrl = inr err ->
      exists e, NewClient apiKey httpClient baseUrl = (None, Some e)
                /\ (apiKey <> "" -> e = fmt_Errorf_w "failed to parse URL: " err))
  /\ (forall c e, NewClient apiKey httpClient baseUrl <> (Some c, Some e)).
Proof.
  unfold NewClient. split; [| split].
  - intros ->. reflexivity.
  - intros err Hb Hp. apply String.eqb_neq in Hb. rewrite Hb, Hp.
    destruct (String.eqb apiKey "") eqn:Hk.
    + eexists. split; [reflexivity |]. apply String.eqb_eq in Hk. intros; contradiction.
    + eexists. split; reflexivity.
  - intros c e. destruct (String.eqb apiKey ""); [discriminate |].
    destruct (url_Parse _); discriminate.
Qed.

(** The URL text a request is created from ends with a slash: one is
    appended to the text of the base URL when it lacks one, and the result
    then ends with exactly one; a text that ends with a slash is used as it
    is. *)
Lemma requestURL_slash (c : DNSClient) :
  strings_HasSuffix (requestURL c) "/" = true
  /\ (strings_HasSuffix (URL_String (BaseURL c)) "/" = false ->
      requestURL c = URL_String (BaseURL c) +:+ "/" /\ endsWithOneSlash (requestURL c))
  /\ (strings_HasSuffix (URL_String (BaseURL c)) "/" = true ->
      requestURL c = URL_String (BaseURL c)).
Proof.
  unfold requestURL.
  destruct (strings_HasSuffix (URL_String (BaseURL c)) "/") eqn:Hs; cbn [negb].
  - repeat split; try (assumption || discriminate).
  - assert (Hone : strings_HasSuffix (URL_String (BaseURL c) +:+ "/") "/" = true)
      by apply HasSuffix_app.
    repeat split; try (assumption || discriminate).
    destruct (strings_HasSuffix (URL_String (BaseURL c) +:+ "/") "//") eqn:Htwo;
      [| reflexivity].
    apply (HasSuffix_twice _ "/") in Htwo. congruence.
Qed.

(** Requests for the same target are sent to the same URL. *)
Lemma sameTarget_sentURLText (a b : Request) :
  sameTarget a b -> sentURLText a = sentURLText b.
Proof.
  intros (_ & _ & Hurl). unfold sentURLText. f_equal.
  destruct (URL a), (URL b). unfold URL_set_RawQuery, URL_target in *. cbn in *.
  injection Hurl as -> -> -> -> -> -> -> _ _ _. reflexivity.
Qed.

(** C7, as the code has it.  Take a client for which the URL of the request
    that [http.NewRequest] makes, printed without query string and fragment,
    is the text it was made from: the slash went to the path, not to a query
    string or a fragment of the base URL.  Then the URL every request is sent
    to ends, before its query string, with a slash: it is the text of the
    base URL with a slash appended when that text lacks one, and it then ends
    with exactly one slash; it is the text of the base URL itself when that
    ends with a slash, however many. *)
Theorem C7_trailing_slash (op : Operation) (c : DNSClient) (r : DNSRecordValue)
        (uniqueId : string) (req req0 : Request) :
  In req (sent (snd (perform op c r uniqueId))) ->
  http_NewRequest "GET" (requestURL c) = inl req0 ->
  sentURLText req0 = requestURL c ->
  sentURLText req = requestURL c
  /\ strings_HasSuffix (sentURLText req) "/" = true
  /\ (strings_HasSuffix (URL_String (BaseURL c)) "/" = false ->
      sentURLText req = URL_String (BaseURL c) +:+ "/"
      /\ endsWithOneSlash (sentURLText req))
  /\ (strings_HasSuffix (URL_String (BaseURL c)) "/" = true ->
      sentURLText req = URL_String (BaseURL c)).
Proof.
  intros Hin Hreq Hprint.
  rewrite perform_callPath, callPath_events in Hin.
  destruct (sent_origin _ _ _ _ _ Hin) as (req0' & Hreq' & Hsame).
  rewrite Hreq in Hreq'. injection Hreq' as <-.
  assert (Htext : sentURLText req = requestURL c).
  { rewrite (sameTarget_sentURLText _ _ Hsame). exact Hprint. }
  rewrite Htext. split; [reflexivity |]. apply requestURL_slash.
Qed.

(** C8.  One call path.  [CreateRecord] and [DeleteRecord] are the same
    call path at the commands ["dns-add_record"] and ["dns-remove_record"].
    When they send a request, the two requests differ in the values of the
    [cmd] parameter only, where one ends with the first command and the other
    with the second; and if the HTTP client answers both alike, the two
    operations return the same.  When one sends no request, neither does the
    other and they return the same. *)
Theorem C8_one_call_path (c : DNSClient) (r : DNSRecordValue) (uniqueId : string) :
  CreateRecord c r uniqueId = callPath "dns-add_record" c r uniqueId
  /\ DeleteRecord c r uniqueId = callPath "dns-remove_record" c r uniqueId
  /\ (forall reqC reqD,
      sent (snd (CreateRecord c r uniqueId)) = [reqC] ->
      sent (snd (DeleteRecord c r uniqueId)) = [reqD] ->
      sameButQuery reqC reqD
      /\ (forall k, k <> "cmd" -> URL_Query (URL reqC) !! k = URL_Query (URL reqD) !! k)
      /\ (exists vs, valuesOf (URL_Query (URL reqC)) "cmd" = vs ++ ["dns-add_record"]
                     /\ valuesOf (URL_Query (URL reqD)) "cmd" = vs ++ ["dns-remove_record"])
      /\ (Transport (client c) reqC = Transport (client c) reqD ->
          fst (CreateRecord c r uniqueId) = fst (DeleteRecord c r uniqueId)))
  /\ (sent (snd (CreateRecord c r uniqueId)) = [] ->
      CreateRecord c r uniqueId = DeleteRecord c r uniqueId).
Proof.
  split; [reflexivity |]. split; [reflexivity |].
  change (CreateRecord c r uniqueId) with (callPath "dns-add_record" c r uniqueId).
  change (DeleteRecord c r uniqueId) with (callPath "dns-remove_record" c r uniqueId).
  rewrite !callPath_events, !sendRequest_sent.
  unfold callPath, sendRequest. cbv zeta.
  destruct (http_NewRequest "GET" (requestURL c)) as [req0 | e0];
    [| split; [discriminate | reflexivity]].
  pose proof (addToReq_error r (prepareRequest c req0 "dns-add_record" uniqueId)
                (prepareRequest c req0 "dns-remove_record" uniqueId)) as Herr.
  destruct (addToReq r (prepareRequest c req0 "dns-add_record" uniqueId))
    as [rc [ec |]] eqn:HC;
    destruct (addToReq r (prepareRequest c req0 "dns-remove_record" uniqueId))
      as [rd [ed |]] eqn:HD; simpl in Herr; try discriminate Herr.
  - injection Herr as <-. split; [discriminate | reflexivity].
  - split; [| discriminate].
    intros reqC reqD [= <-] [= <-].
    destruct (built_Query _ _ _ _ _ _ HC) as [HqC _].
    destruct (built_Query _ _ _ _ _ _ HD) as [HqD _].
    pose proof (addToReq_None_valid _ _ _ HC) as Hvalid.
    rewrite (addToReq_valid r _ Hvalid) in HC. rewrite (addToReq_valid r _ Hvalid) in HD.
    split; [| split; [| split]].
    + injection HC as <-. injection HD as <-. repeat split.
    + intros k Hk. rewrite HqC, HqD, !lookup_fold_add.
      now rewrite (paramValues_command c r "dns-add_record" "dns-remove_record" uniqueId k Hk).
    + exists (valuesOf (URL_Query (URL req0)) "cmd").
      rewrite HqC, HqD, !valuesOf_fold_add. unfold paramValues, preparedParams.
      destruct (String.eqb uniqueId ""); split; reflexivity.
    + intros ->.
      destruct (Transport (client c) rd) as [resp | e]; [| reflexivity].
      destruct ((StatusCode resp <? 200)%Z || (StatusCode resp >=? 300)%Z); [reflexivity |].
      destruct (Body resp) as [body | e]; [| reflexivity].
      destruct (json_Unmarshal body) as [apiResp | e]; [| reflexivity].
      destruct (negb (String.eqb (Result apiResp) "success")); reflexivity.
Qed.

(** C9.  A 2xx response whose body cannot be read: the request path
    returns no response and an error that wraps the cause under the message
    "failed to read HTTP body", which is not the error of a body that fails
    to parse; the operation returns that error, which the suppression rule
    cannot turn into success. *)
Theorem C9_unreadable_body (op : Operation) (c : DNSClient) (r : DNSRecordValue)
        (uniqueId : string) (req0 req : Request) (resp : Response) (cause : error) :
  exchange c r (command op) uniqueId req0 req resp ->
  status2xx resp ->
  Body resp = inr cause ->
  exists e,
    sendRequest c r (command op) uniqueId = (None, Some e, [EvDo req; EvReadAll; EvClose])
    /\ perform op c r uniqueId = (Some e, [EvDo req; EvReadAll; EvClose])
    /\ errors_Unwrap e = Some cause
    /\ Error e = "failed to read HTTP body: " +:+ Error cause
    /\ strings_Contains (Error e) "failed to read HTTP body" = true
    /\ strings_HasPrefix (Error e) "failed to parse response" = false
    /\ (forall cause', e <> fmt_Errorf_w "failed to parse response: " cause').
Proof.
  intros Hex Hst Hbody.
  pose proof (sendRequest_exchange _ _ _ _ _ _ _ Hex) as Hsend.
  rewrite (status2xx_test _ Hst), Hbody in Hsend.
  eexists. split; [exact Hsend |]. split; [| split; [| split; [| split; [| split]]]].
  - rewrite perform_callPath. unfold callPath. rewrite Hsend. reflexivity.
  - reflexivity.
  - reflexivity.
  - exact (Contains_prefix "failed to read HTTP body" (": " +:+ Error cause)).
  - reflexivity.
  - intros cause' H. apply (f_equal Error) in H. discriminate H.
Qed.

(** C10, as the code has it.  Suppression without an identifier.  A call
    with the empty identifier adds no [unique_id] to the request: the
    [unique_id] values of the request sent are those of the request
    [http.NewRequest] made, none when that has none.  When the answer is a
    parsed response that does not report success and whose data field is
    ["unique_id_already_used"], the operation returns no error all the
    same. *)
Theorem C10_suppression_without_identifier (op : Operation) (c : DNSClient)
        (r : DNSRecordValue) (req0 req : Request) (resp : Response)
        (body : string) (apiResp : DreamhostResponse) :
  exchange c r (command op) "" req0 req resp ->
  status2xx resp ->
  Body resp = inl body ->
  json_Unmarshal body = inl apiResp ->
  Result apiResp <> "success" ->
  Data apiResp = "unique_id_already_used" ->
  perform op c r "" = (None, [EvDo req; EvReadAll; EvClose])
  /\ valuesOf (URL_Query (URL req)) "unique_id" = valuesOf (URL_Query (URL req0)) "unique_id"
  /\ URL_Query (URL req) !! "unique_id" = URL_Query (URL req0) !! "unique_id"
  /\ (URL_Query (URL req0) !! "unique_id" = None ->
      Values_Has (URL_Query (URL req)) "unique_id" = false).
Proof.
  intros Hex Hst Hbody Hjson Hres Hdata.
  pose proof (sendRequest_exchange _ _ _ _ _ _ _ Hex) as Hsend.
  rewrite (status2xx_test _ Hst), Hbody, Hjson in Hsend.
  apply String.eqb_neq in Hres. rewrite Hres in Hsend. simpl in Hsend.
  destruct Hex as (_ & Hadd & _).
  destruct (built_Query _ _ _ _ _ _ Hadd) as [Hq _].
  assert (Hlk : URL_Query (URL req) !! "unique_id" = URL_Query (URL req0) !! "unique_id").
  { rewrite Hq. apply lookup_fold_add_other. reflexivity. }
  split; [| split; [| split]].
  - rewrite perform_callPath. unfold callPath. rewrite Hsend. simpl.
    now rewrite Hdata.
  - unfold valuesOf. now rewrite Hlk.
  - exact Hlk.
  - intros Hnone. unfold Values_Has. now rewrite Hlk, Hnone.
Qed.

End Claims.

(** * The properties on the exchanges of the test-suite *)

(** The repeated identifier of [TestCreateRecordWithRepeatUniqueId]: response
    and error come back together, and the operation reports success. *)
Lemma C1_suppression_rule_witness :
  exists resp err events,
    sendRequest (L := GoRef.lib) (Tests.clientFor 200 Tests.bodyRepeat) Tests.recordValue
                (command OpCreate) "unique123" = (resp, err, events)
    /\ suppressible resp err
    /\ perform (L := GoRef.lib) OpCreate (Tests.clientFor 200 Tests.bodyRepeat)
               Tests.recordValue "unique123" = (None, events).
Proof.
  eexists _, _, _. split; [vm_compute; reflexivity |].
  destruct (C1_suppression_rule (L := GoRef.lib) OpCreate
              (Tests.clientFor 200 Tests.bodyRepeat) Tests.recordValue "unique123" _ _ _ eq_refl)
    as [[Hs Hp] | [Hn _]].
  - split; [exact Hs | exact Hp].
  - exfalso. apply Hn. eexists _, _. repeat split.
Defined.

(** A record without a name, on the default client: the error of the name
    field and no request. *)
Lemma C2_validation_is_local_witness :
  firstEmpty Tests.recordNoName FName
  /\ sent (snd (perform (L := GoRef.lib) OpCreate Tests.defaultClient Tests.recordNoName
                        "abc123")) = []
  /\ perform (L := GoRef.lib) OpCreate Tests.defaultClient Tests.recordNoName "abc123"
     = (Some (errors_New "DNSRecordValue.Name must not be empty"), []).
Proof.
  assert (H : firstEmpty Tests.recordNoName FName) by (split; [reflexivity | exact I]).
  split; [exact H |].
  destruct (C2_validation_is_local (L := GoRef.lib) OpCreate Tests.defaultClient
              Tests.recordNoName "abc123" FName H) as (Hsent & Hret & _).
  split; [exact Hsent |].
  eapply Hret. vm_compute. reflexivity.
Defined.

(** C2 as stated fails: [NewClient] accepts a base URL whose host has a zone
    with a byte above 127; its text escapes that byte, and [http.NewRequest]
    does not parse the text back.  A record without a name then gets the
    error of the request, which names no field. *)
Lemma C2_counterexample :
  NewClient (L := GoRef.lib) Tests.apiKey (Some (GoRef.mockHttpResponse 200 Tests.bodyAdded))
            MoreTests.zoneURL = (Some MoreTests.clientZone, None)
  /\ firstEmpty Tests.recordNoName FName
  /\ exists e,
       CreateRecord (L := GoRef.lib) MoreTests.clientZone Tests.recordNoName "" = (Some e, [])
       /\ DeleteRecord (L := GoRef.lib) MoreTests.clientZone Tests.recordNoName "" = (Some e, [])
       /\ strings_HasPrefix (Error e) "failed to create request: " = true
       /\ (forall g, strings_Contains (Error e) (fieldName g) = false)
       /\ e <> errors_New "DNSRecordValue.Name must not be empty".
Proof.
  split; [vm_compute; reflexivity |].
  split; [split; [reflexivity | exact I] |].
  eexists. split; [vm_compute; reflexivity |].
  split; [vm_compute; reflexivity |].
  split; [vm_compute; reflexivity |].
  split; [intros g; destruct g; vm_compute; reflexivity |].
  intros H. vm_compute in H. discriminate H.
Qed.

(** The request of [TestCreateRecord]: with a base URL that has no query
    string, the query string is the one the specification describes. *)
Lemma C3_request_parameters_witness :
  validRecord Tests.recordValue
  /\ http_NewRequest (GoLibrary := GoRef.lib) "GET"
       (requestURL (L := GoRef.lib) (Tests.clientFor 200 Tests.bodyAdded)) = inl Tests.request0
  /\ exists req,
       sent (snd (perform (L := GoRef.lib) OpCreate (Tests.clientFor 200 Tests.bodyAdded)
                          Tests.recordValue "")) = [req]
       /\ queryAsSpecified (Tests.clientFor 200 Tests.bodyAdded) Tests.recordValue
            "dns-add_record" "" (URL_Query (URL req)).
Proof.
  assert (Hv : validRecord Tests.recordValue) by (repeat split; discriminate).
  assert (Hr : http_NewRequest (GoLibrary := GoRef.lib) "GET"
                 (requestURL (L := GoRef.lib) (Tests.clientFor 200 Tests.bodyAdded))
               = inl Tests.request0) by (vm_compute; reflexivity).
  split; [exact Hv |]. split; [exact Hr |].
  destruct (C3_request_parameters (L := GoRef.lib) OpCreate (Tests.clientFor 200 Tests.bodyAdded)
              Tests.recordValue "" Tests.request0 Hv Hr)
    as (req & Hsent & _ & H).
  exists req. split; [exact Hsent |].
  cbv zeta in H. destruct H as (_ & _ & _ & _ & _ & _ & _ & _ & _ & _ & Hq).
  apply Hq; [reflexivity | vm_compute; reflexivity].
Defined.

(** C3 as stated fails: a client whose base URL has a query string with a
    [unique_id] of its own sends it along, although the caller's identifier
    is empty. *)
Lemma C3_counterexample :
  NewClient (L := GoRef.lib) Tests.apiKey (Some (GoRef.mockHttpResponse 200 Tests.bodyAdded))
            Tests.withQuery = (Some Tests.clientWithQuery, None)
  /\ validRecord Tests.recordValue
  /\ exists req,
       CreateRecord (L := GoRef.lib) Tests.clientWithQuery Tests.recordValue ""
       = (None, [EvDo req; EvReadAll; EvClose])
       /\ RawQuery (URL req)
          = "cmd=dns-add_record&format=json&key=apikey123&record=example.com&type=TXT&unique_id=x%2F&value=testValue"
       /\ URL_Query (URL req) !! "unique_id" = Some ["x/"]
       /\ ~ queryAsSpecified Tests.clientWithQuery Tests.recordValue "dns-add_record" ""
            (URL_Query (URL req)).
Proof.
  split; [vm_compute; reflexivity |].
  split; [repeat split; discriminate |].
  eexists. split; [vm_compute; reflexivity |].
  split; [reflexivity |]. split; [vm_compute; reflexivity |].
  intros (_ & _ & _ & _ & _ & _ & _ & H). specialize (H eq_refl).
  vm_compute in H. discriminate H.
Qed.

(** The answer of [TestCreateRecordErrorResponse]. *)
Lemma C4_non_success_keeps_response_witness :
  exists req resp e,
    exchange (L := GoRef.lib) (Tests.clientFor 200 Tests.bodyExists) Tests.recordValue
             "dns-add_record" "" Tests.request0 req resp
    /\ status2xx resp
    /\ sendRequest (L := GoRef.lib) (Tests.clientFor 200 Tests.bodyExists) Tests.recordValue
                   "dns-add_record" ""
       = (Some (mkDreamhostResponse "error" "record_already_exists_remove_first" ""),
          Some e, [EvDo req; EvReadAll; EvClose])
    /\ Error e = "dreamhost API returned non-successful result: {error record_already_exists_remove_first }".
Proof.
  assert (Hex : exchange (L := GoRef.lib) (Tests.clientFor 200 Tests.bodyExists)
                  Tests.recordValue "dns-add_record" "" Tests.request0
                  (fst (addToReq Tests.recordValue
                          (prepareRequest (Tests.clientFor 200 Tests.bodyExists)
                             Tests.request0 "dns-add_record" "")))
                  (mkResponse 200 (inl Tests.bodyExists)))
    by (repeat split; vm_compute; reflexivity).
  assert (Hst : status2xx (mkResponse 200 (inl Tests.bodyExists)))
    by (unfold status2xx; simpl; lia).
  destruct (C4_non_success_keeps_response (L := GoRef.lib) _ _ _ _ _ _ _
              Tests.bodyExists
              (mkDreamhostResponse "error" "record_already_exists_remove_first" "")
              Hex Hst eq_refl eq_refl ltac:(discriminate)) as (e & Hsend & _ & Hmsg).
  eexists _, _, e.
  split; [exact Hex |]. split; [exact Hst |]. split; [exact Hsend | exact Hmsg].
Defined.

(** The answer of [TestCreateRecord500Error]: status 500 with the body of a
    success. *)
Lemma C5_status_before_body_witness :
  exists req e,
    exchange (L := GoRef.lib) (Tests.clientFor 500 Tests.bodyAdded) Tests.recordValue
             (command OpCreate) "" Tests.request0 req (mkResponse 500 (inl Tests.bodyAdded))
    /\ ~ status2xx (mkResponse 500 (inl Tests.bodyAdded))
    /\ perform (L := GoRef.lib) OpCreate (Tests.clientFor 500 Tests.bodyAdded)
               Tests.recordValue "" = (Some e, [EvDo req; EvClose])
    /\ Error e = "dreamhost API returned unexpected status code 500".
Proof.
  assert (Hex : exchange (L := GoRef.lib) (Tests.clientFor 500 Tests.bodyAdded)
                  Tests.recordValue (command OpCreate) "" Tests.request0
                  (fst (addToReq Tests.recordValue
                          (prepareRequest (Tests.clientFor 500 Tests.bodyAdded)
                             Tests.request0 (command OpCreate) "")))
                  (mkResponse 500 (inl Tests.bodyAdded)))
    by (repeat split; vm_compute; reflexivity).
  assert (Hst : ~ status2xx (mkResponse 500 (inl Tests.bodyAdded)))
    by (unfold status2xx; simpl; lia).
  destruct (C5_status_before_body (L := GoRef.lib) _ _ _ _ _ _ _ Hex Hst)
    as (e & _ & Hp & Hmsg & _).
  eexists _, e.
  split; [exact Hex |]. split; [exact Hst |]. split; [exact Hp | exact Hmsg].
Defined.

(** The empty key of [TestNewClientWithEmptyApiKey] and the control character
    of [TestNewClientWithInvalidUrl]. *)
Lemma C6_NewClient_errors_witness :
  NewClient (L := GoRef.lib) "" None "" = (None, Some (errors_New "empty apiKey"))
  /\ GoRef.Parse (String "127" "")
     = inr (GoRef.url_Error "parse" (String "127" "")
              (errors_New "net/url: invalid control character in URL"))
  /\ exists e, NewClient (L := GoRef.lib) "test123" None (String "127" "") = (None, Some e)
               /\ strings_HasPrefix (Error e) "failed to parse URL: " = true.
Proof.
  split; [| split].
  - apply (C6_NewClient_errors (L := GoRef.lib) "" None ""). reflexivity.
  - vm_compute. reflexivity.
  - destruct (C6_NewClient_errors (L := GoRef.lib) "test123" None (String "127" ""))
      as (_ & H & _).
    destruct (H _ ltac:(discriminate) eq_refl) as (e & He & Hmsg).
    exists e. split; [exact He |].
    rewrite (Hmsg ltac:(discriminate)). reflexivity.
Defined.

(** The address of a mock server has no trailing slash: one is appended, and
    the request of [TestCreateRecord] goes to the address with one slash. *)
Lemma C7_trailing_slash_witness :
  exists req,
    In req (sent (snd (perform (L := GoRef.lib) OpCreate (Tests.clientFor 200 Tests.bodyAdded)
                               Tests.recordValue "")))
    /\ http_NewRequest (GoLibrary := GoRef.lib) "GET"
         (requestURL (L := GoRef.lib) (Tests.clientFor 200 Tests.bodyAdded)) = inl Tests.request0
    /\ sentURLText (L := GoRef.lib) Tests.request0
       = requestURL (L := GoRef.lib) (Tests.clientFor 200 Tests.bodyAdded)
    /\ strings_HasSuffix
         (URL_String (GoLibrary := GoRef.lib) (BaseURL (Tests.clientFor 200 Tests.bodyAdded)))
         "/" = false
    /\ sentURLText (L := GoRef.lib) req = "http://127.0.0.1:8080/"
    /\ endsWithOneSlash (sentURLText (L := GoRef.lib) req).
Proof.
  set (req := fst (addToReq Tests.recordValue
                     (prepareRequest (Tests.clientFor 200 Tests.bodyAdded) Tests.request0
                        (command OpCreate) ""))).
  assert (Hin : In req (sent (snd (perform (L := GoRef.lib) OpCreate
                                     (Tests.clientFor 200 Tests.bodyAdded)
                                     Tests.recordValue ""))))
    by (left; vm_compute; reflexivity).
  assert (Hr : http_NewRequest (GoLibrary := GoRef.lib) "GET"
                 (requestURL (L := GoRef.lib) (Tests.clientFor 200 Tests.bodyAdded))
               = inl Tests.request0) by (vm_compute; reflexivity).
  assert (Hp : sentURLText (L := GoRef.lib) Tests.request0
               = requestURL (L := GoRef.lib) (Tests.clientFor 200 Tests.bodyAdded))
    by (vm_compute; reflexivity).
  assert (H : strings_HasSuffix
                (URL_String (GoLibrary := GoRef.lib) (BaseURL (Tests.clientFor 200 Tests.bodyAdded)))
                "/" = false) by (vm_compute; reflexivity).
  destruct (C7_trailing_slash (L := GoRef.lib) OpCreate (Tests.clientFor 200 Tests.bodyAdded)
              Tests.recordValue "" req Tests.request0 Hin Hr Hp)
    as (_ & _ & Happ & _).
  destruct (Happ H) as [Heq Hone].
  exists req. split; [exact Hin |]. split; [exact Hr |]. split; [exact Hp |].
  split; [exact H |]. split; [| exact Hone].
  rewrite Heq. vm_compute. reflexivity.
Defined.

(** C7 as stated fails: the text of a base URL that ends with two slashes is
    used as it is, and the request is sent to a URL that ends with two
    slashes. *)
Lemma C7_counterexample :
  NewClient (L := GoRef.lib) Tests.apiKey (Some (GoRef.mockHttpResponse 200 Tests.bodyAdded))
            Tests.twoSlashes = (Some Tests.clientTwoSlashes, None)
  /\ requestURL (L := GoRef.lib) Tests.clientTwoSlashes = "http://example.com//"
  /\ ~ endsWithOneSlash (requestURL (L := GoRef.lib) Tests.clientTwoSlashes)
  /\ exists req,
       CreateRecord (L := GoRef.lib) Tests.clientTwoSlashes Tests.recordValue ""
       = (None, [EvDo req; EvReadAll; EvClose])
       /\ Path (URL req) = "//"
       /\ sentURLText (L := GoRef.lib) req = "http://example.com//"
       /\ ~ endsWithOneSlash (sentURLText (L := GoRef.lib) req).
Proof.
  split; [vm_compute; reflexivity |].
  split; [vm_compute; reflexivity |].
  split.
  - intros [_ H]. vm_compute in H. discriminate H.
  - eexists. split; [vm_compute; reflexivity |]. split; [reflexivity |].
    split; [vm_compute; reflexivity |].
    intros [_ H]. vm_compute in H. discriminate H.
Qed.

(** A base URL with a query string or a fragment takes the appended slash
    there: the request goes to a path without a trailing slash.  The property
    of the trailing slash leaves these base URLs aside. *)
Example slash_in_query_or_fragment :
  (exists c req,
     NewClient (L := GoRef.lib) Tests.apiKey (Some (GoRef.mockHttpResponse 200 Tests.bodyAdded))
               "http://example.com/api?x=1" = (Some c, None)
     /\ requestURL (L := GoRef.lib) c = "http://example.com/api?x=1/"
     /\ CreateRecord (L := GoRef.lib) c Tests.recordValue ""
        = (None, [EvDo req; EvReadAll; EvClose])
     /\ Path (URL req) = "/api"
     /\ URL_Query (URL req) !! "x" = Some ["1/"]
     /\ sentURLText (L := GoRef.lib) req = "http://example.com/api")
  /\ (exists c req,
        NewClient (L := GoRef.lib) Tests.apiKey (Some (GoRef.mockHttpResponse 200 Tests.bodyAdded))
                  "http://example.com/api#f" = (Some c, None)
        /\ requestURL (L := GoRef.lib) c = "http://example.com/api#f/"
        /\ CreateRecord (L := GoRef.lib) c Tests.recordValue ""
           = (None, [EvDo req; EvReadAll; EvClose])
        /\ Path (URL req) = "/api"
        /\ Fragment (URL req) = "f/"
        /\ sentURLText (L := GoRef.lib) req = "http://example.com/api").
Proof.
  split; eexists _, _;
    (split; [vm_compute; reflexivity |]); (split; [vm_compute; reflexivity |]);
    (split; [vm_compute; reflexivity |]); (split; [reflexivity |]);
    split; vm_compute; reflexivity.
Qed.

(** The requests of [TestCreateRecord] and [TestDeleteRecord] against the
    same server. *)
Lemma C8_one_call_path_witness :
  exists reqC reqD,
    sent (snd (CreateRecord (L := GoRef.lib) (Tests.clientFor 200 Tests.bodyAdded)
                            Tests.recordValue "")) = [reqC]
    /\ sent (snd (DeleteRecord (L := GoRef.lib) (Tests.clientFor 200 Tests.bodyAdded)
                               Tests.recordValue "")) = [reqD]
    /\ sameButQuery reqC reqD
    /\ RawQuery (URL reqC)
       = "cmd=dns-add_record&format=json&key=apikey123&record=example.com&type=TXT&value=testValue"
    /\ RawQuery (URL reqD)
       = "cmd=dns-remove_record&format=json&key=apikey123&record=example.com&type=TXT&value=testValue"
    /\ fst (CreateRecord (L := GoRef.lib) (Tests.clientFor 200 Tests.bodyAdded)
                         Tests.recordValue "")
       = fst (DeleteRecord (L := GoRef.lib) (Tests.clientFor 200 Tests.bodyAdded)
                           Tests.recordValue "").
Proof.
  eexists _, _.
  split; [vm_compute; reflexivity |]. split; [vm_compute; reflexivity |].
  destruct (C8_one_call_path (L := GoRef.lib) (Tests.clientFor 200 Tests.bodyAdded)
              Tests.recordValue "") as (_ & _ & H & _).
  edestruct H as (Hsame & _ & _ & Hres); [vm_compute; reflexivity | vm_compute; reflexivity |].
  split; [exact Hsame |]. split; [vm_compute; reflexivity |]. split; [vm_compute; reflexivity |].
  apply Hres. vm_compute. reflexivity.
Defined.

(** A server whose connection breaks while the body is read. *)
Lemma C9_unreadable_body_witness :
  exists req e,
    exchange (L := GoRef.lib) Tests.clientBrokenBody Tests.recordValue (command OpDelete) ""
             Tests.request0 req (mkResponse 200 (inr (errorString "unexpected EOF")))
    /\ perform (L := GoRef.lib) OpDelete Tests.clientBrokenBody Tests.recordValue ""
       = (Some e, [EvDo req; EvReadAll; EvClose])
    /\ Error e = "failed to read HTTP body: unexpected EOF".
Proof.
  assert (Hex : exchange (L := GoRef.lib) Tests.clientBrokenBody Tests.recordValue
                  (command OpDelete) "" Tests.request0
                  (fst (addToReq Tests.recordValue
                          (prepareRequest Tests.clientBrokenBody Tests.request0
                             (command OpDelete) "")))
                  (mkResponse 200 (inr (errorString "unexpected EOF"))))
    by (repeat split; vm_compute; reflexivity).
  assert (Hst : status2xx (mkResponse 200 (inr (errorString "unexpected EOF"))))
    by (unfold status2xx; simpl; lia).
  destruct (C9_unreadable_body (L := GoRef.lib) _ _ _ _ _ _ _ _ Hex Hst eq_refl)
    as (e & _ & Hp & _ & Hmsg & _).
  eexists _, e. split; [exact Hex |]. split; [exact Hp | exact Hmsg].
Defined.

(** The sentinel in answer to a call without identifier. *)
Lemma C10_suppression_without_identifier_witness :
  exists req,
    exchange (L := GoRef.lib) (Tests.clientFor 200 Tests.bodyRepeat) Tests.recordValue
             (command OpCreate) "" Tests.request0 req (mkResponse 200 (inl Tests.bodyRepeat))
    /\ Values_Has (URL_Query (URL req)) "unique_id" = false
    /\ perform (L := GoRef.lib) OpCreate (Tests.clientFor 200 Tests.bodyRepeat)
               Tests.recordValue "" = (None, [EvDo req; EvReadAll; EvClose]).
Proof.
  assert (Hex : exchange (L := GoRef.lib) (Tests.clientFor 200 Tests.bodyRepeat)
                  Tests.recordValue (command OpCreate) "" Tests.request0
                  (fst (addToReq Tests.recordValue
                          (prepareRequest (Tests.clientFor 200 Tests.bodyRepeat)
                             Tests.request0 (command OpCreate) "")))
                  (mkResponse 200 (inl Tests.bodyRepeat)))
    by (repeat split; vm_compute; reflexivity).
  assert (Hst : status2xx (mkResponse 200 (inl Tests.bodyRepeat)))
    by (unfold status2xx; simpl; lia).
  destruct (C10_suppression_without_identifier (L := GoRef.lib) OpCreate _ _ _ _ _
              Tests.bodyRepeat (mkDreamhostResponse "error" "unique_id_already_used" "")
              Hex Hst eq_refl eq_refl ltac:(discriminate) eq_refl) as (Hp & _ & _ & Hhas).
  eexists. split; [exact Hex |]. split; [| exact Hp].
  apply Hhas. vm_compute. reflexivity.
Defined.

(** C10 as stated fails: with a base URL that has a [unique_id] in its query
    string, a call with the empty identifier sends a [unique_id] parameter,
    and the sentinel is suppressed as well. *)
Lemma C10_counterexample :
  NewClient (L := GoRef.lib) Tests.apiKey (Some (GoRef.mockHttpResponse 200 Tests.bodyRepeat))
            Tests.withQuery = (Some MoreTests.clientWithQueryRepeat, None)
  /\ exists reqC reqD,
       CreateRecord (L := GoRef.lib) MoreTests.clientWithQueryRepeat Tests.recordValue ""
       = (None, [EvDo reqC; EvReadAll; EvClose])
       /\ DeleteRecord (L := GoRef.lib) MoreTests.clientWithQueryRepeat Tests.recordValue ""
          = (None, [EvDo reqD; EvReadAll; EvClose])
       /\ RawQuery (URL reqC)
          = "cmd=dns-add_record&format=json&key=apikey123&record=example.com&type=TXT&unique_id=x%2F&value=testValue"
       /\ Values_Has (URL_Query (URL reqC)) "unique_id" = true
       /\ Values_Has (URL_Query (URL reqD)) "unique_id" = true
       /\ URL_Query (URL reqC) !! "unique_id" = Some ["x/"].
Proof.
  split; [vm_compute; reflexivity |].
  eexists _, _. split; [vm_compute; reflexivity |].
  split; [vm_compute; reflexivity |].
  split; [reflexivity |].
  split; [vm_compute; reflexivity |].
  split; vm_compute; reflexivity.
Qed.

(** * The test-suite, run on the model

    The cases of [dreamhost_test.go], with the mock server in the place of
    the transport. *)

Section TestSuite.
Import GoRef.

Example TestNewClientWithMinimalArgs :
  NewClient "test123" None "" = (Some Tests.defaultClient, None)
  /\ URL_String (BaseURL Tests.defaultClient) = dreamhostBaseUrl.
Proof. split; vm_compute; reflexivity. Qed.

Example TestNewClientWithEmptyApiKey :
  exists e, NewClient "" None "" = (None, Some e).
Proof. eexists. vm_compute. reflexivity. Qed.

Example TestNewClientWithInvalidUrl :
  exists e, NewClient "test123" None (String "127" "") = (None, Some e).
Proof. eexists. vm_compute. reflexivity. Qed.

Example TestCreateRecord :
  exists req,
    CreateRecord (Tests.clientFor 200 Tests.bodyAdded) Tests.recordValue ""
    = (None, [EvDo req; EvReadAll; EvClose])
    /\ Header_Get (Req_Header req) "User-Agent" = agentString
    /\ Values_Get (URL_Query (URL req)) "key" = Tests.apiKey
    /\ Values_Get (URL_Query (URL req)) "cmd" = "dns-add_record"
    /\ Values_Get (URL_Query (URL req)) "format" = "json"
    /\ Values_Get (URL_Query (URL req)) "record" = "example.com"
    /\ Values_Get (URL_Query (URL req)) "type" = "TXT"
    /\ Values_Get (URL_Query (URL req)) "value" = "testValue"
    /\ Values_Has (URL_Query (URL req)) "unique_id" = false.
Proof. eexists. split; [vm_compute; reflexivity |]. repeat split; vm_compute; reflexivity. Qed.

Example TestDeleteRecord :
  exists req,
    DeleteRecord (Tests.clientFor 200 Tests.bodyRemoved) Tests.recordValue ""
    = (None, [EvDo req; EvReadAll; EvClose])
    /\ Header_Get (Req_Header req) "User-Agent" = agentString
    /\ Values_Get (URL_Query (URL req)) "key" = Tests.apiKey
    /\ Values_Get (URL_Query (URL req)) "cmd" = "dns-remove_record"
    /\ Values_Get (URL_Query (URL req)) "format" = "json"
    /\ Values_Get (URL_Query (URL req)) "record" = "example.com"
    /\ Values_Get (URL_Query (URL req)) "type" = "TXT"
    /\ Values_Get (URL_Query (URL req)) "value" = "testValue"
    /\ Values_Has (URL_Query (URL req)) "unique_id" = false.
Proof. eexists. split; [vm_compute; reflexivity |]. repeat split; vm_compute; reflexivity. Qed.

Example TestCreateRecordWithUniqueId :
  exists req,
    CreateRecord (Tests.clientFor 200 Tests.bodyAdded) Tests.recordValue "unique123"
    = (None, [EvDo req; EvReadAll; EvClose])
    /\ Values_Get (URL_Query (URL req)) "unique_id" = "unique123".
Proof. eexists. split; vm_compute; reflexivity. Qed.

Example TestCreateRecordWithRepeatUniqueId :
  fst (CreateRecord (Tests.clientFor 200 Tests.bodyRepeat) Tests.recordValue "unique123") = None.
Proof. vm_compute. reflexivity. Qed.

Example TestCreateRecord500Error :
  exists e,
    fst (CreateRecord (Tests.clientFor 500 Tests.bodyAdded) Tests.recordValue "") = Some e
    /\ strings_Contains (Error e) "dreamhost API returned unexpected status code 500" = true.
Proof. eexists. split; vm_compute; reflexivity. Qed.

Example TestCreateRecordInvalidResponse :
  exists e,
    fst (CreateRecord (Tests.clientFor 200 "invalid") Tests.recordValue "") = Some e
    /\ strings_Contains (Error e) "failed to parse response" = true.
Proof. eexists. split; vm_compute; reflexivity. Qed.

Example TestCreateRecordConnectionError :
  exists e,
    fst (CreateRecord Tests.clientClosed Tests.recordValue "") = Some e
    /\ strings_Contains (Error e) "HTTP request failed" = true.
Proof. eexists. split; vm_compute; reflexivity. Qed.

Example TestCreateRecordErrorResponse :
  exists e,
    fst (CreateRecord (Tests.clientFor 200 Tests.bodyExists) Tests.recordValue "") = Some e
    /\ strings_Contains (Error e) "dreamhost API returned non-successful result" = true.
Proof. eexists. split; vm_compute; reflexivity. Qed.

Example TestCreateRecordReturnsErrorWhenInputsAreMissing :
  CreateRecord Tests.defaultClient (mkDNSRecordValue "" "TXT" "testValue") "abc123"
  = (Some (errorString "DNSRecordValue.Name must not be empty"), [])
  /\ CreateRecord Tests.defaultClient (mkDNSRecordValue "example.com" "" "testValue") "abc123"
     = (Some (errorString "DNSRecordValue.RecordType must not be empty"), [])
  /\ CreateRecord Tests.defaultClient (mkDNSRecordValue "example.com" "TXT" "") "abc123"
     = (Some (errorString "DNSRecordValue.Value must not be empty"), []).
Proof. repeat split; vm_compute; reflexivity. Qed.

End TestSuite.

(** * Further properties of the client *)

Section MoreProperties.
Context {L : GoLibrary}.

(** When [addToReq] returns an error, it is the error of the first empty
    field, and the request is as it was. *)
Lemma addToReq_Some_firstEmpty (r : DNSRecordValue) (req req' : Request) (e : error) :
  addToReq r req = (req', Some e) ->
  exists f, firstEmpty r f /\ req' = req
            /\ e = errors_New (fieldName f +:+ " must not be empty").
Proof.
  unfold addToReq.
  destruct (String.eqb_spec (Name r) "") as [Hn | Hn].
  { intros [= <- <-]. exists FName. repeat split. exact Hn. }
  destruct (String.eqb_spec (RecordType r) "") as [Ht | Ht].
  { intros [= <- <-]. exists FRecordType. repeat split; assumption. }
  destruct (String.eqb_spec (Value r) "") as [Hv | Hv].
  { intros [= <- <-]. exists FValue. repeat split; assumption. }
  discriminate.
Qed.

Lemma status_test_2xx (resp : Response) :
  (StatusCode resp <? 200)%Z || (StatusCode resp >=? 300)%Z = false -> status2xx resp.
Proof.
  intros H. apply orb_false_iff in H as [H1 H2].
  apply Z.ltb_ge in H1. rewrite Z.geb_leb in H2. apply Z.leb_gt in H2.
  split; assumption.
Qed.

Lemma status_test_not_2xx (resp : Response) :
  (StatusCode resp <? 200)%Z || (StatusCode resp >=? 300)%Z = true -> ~ status2xx resp.
Proof.
  intros H Hst. rewrite (status2xx_test _ Hst) in H. discriminate.
Qed.

(** Every call of the request path ends in one of the eight ways of
    [requestOutcome]. *)
Lemma sendRequest_outcome (c : DNSClient) (r : DNSRecordValue) (cmd uniqueId : string) :
  requestOutcome c r cmd uniqueId (sendRequest c r cmd uniqueId).
Proof.
  unfold sendRequest. cbv zeta.
  destruct (http_NewRequest "GET" (requestURL c)) as [req0 | cause] eqn:Hreq;
    [| now apply EndNotCreated].
  destruct (addToReq r (prepareRequest c req0 cmd uniqueId)) as [req [e |]] eqn:Hadd.
  { destruct (addToReq_Some_firstEmpty _ _ _ _ Hadd) as (f & Hf & _ & ->).
    now apply EndInvalid with req0. }
  destruct (Transport (client c) req) as [resp | cause] eqn:Hdo;
    [| now apply EndNotSent with req0].
  assert (Hex : exchange c r cmd uniqueId req0 req resp) by (repeat split; assumption).
  destruct ((StatusCode resp <? 200)%Z || (StatusCode resp >=? 300)%Z) eqn:Hst.
  { apply EndStatus with req0; [exact Hex | now apply status_test_not_2xx]. }
  apply status_test_2xx in Hst.
  destruct (Body resp) as [body | cause] eqn:Hbody; [| now apply EndUnread with req0 resp].
  destruct (json_Unmarshal body) as [apiResp | cause] eqn:Hjson;
    [| now apply EndUnparsed with req0 resp body].
  destruct (String.eqb_spec (Result apiResp) "success") as [Hres | Hres]; simpl.
  - now apply EndSuccess with req0 resp body.
  - now apply EndRefused with req0 resp body.
Qed.

(** X1.  A 2xx answer whose body parses to a response with result
    ["success"]: the request path returns the response and no error, and the
    operation returns no error, after one request, one read of the body and
    its close. *)
Theorem X1_success (op : Operation) (c : DNSClient) (r : DNSRecordValue)
        (uniqueId : string) (req0 req : Request) (resp : Response)
        (body : string) (apiResp : DreamhostResponse) :
  exchange c r (command op) uniqueId req0 req resp ->
  status2xx resp ->
  Body resp = inl body ->
  json_Unmarshal body = inl apiResp ->
  Result apiResp = "success" ->
  sendRequest c r (command op) uniqueId
  = (Some apiResp, None, [EvDo req; EvReadAll; EvClose])
  /\ perform op c r uniqueId = (None, [EvDo req; EvReadAll; EvClose]).
Proof.
  intros Hex Hst Hbody Hjson Hres.
  pose proof (sendRequest_exchange _ _ _ _ _ _ _ Hex) as Hsend.
  rewrite (status2xx_test _ Hst), Hbody, Hjson, Hres in Hsend. simpl in Hsend.
  split; [exact Hsend |].
  rewrite perform_callPath. unfold callPath. now rewrite Hsend.
Qed.

(** X2.  When the HTTP client fails, the operation returns the error "HTTP
    request failed" wrapping the cause; no body is read or closed, and the
    suppression rule does not apply. *)
Theorem X2_transport_failure (op : Operation) (c : DNSClient) (r : DNSRecordValue)
        (uniqueId : string) (req0 req : Request) (cause : error) :
  http_NewRequest "GET" (requestURL c) = inl req0 ->
  addToReq r (prepareRequest c req0 (command op) uniqueId) = (req, None) ->
  Transport (client c) req = inr cause ->
  exists e,
    perform op c r uniqueId = (Some e, [EvDo req])
    /\ sendRequest c r (command op) uniqueId = (None, Some e, [EvDo req])
    /\ errors_Unwrap e = Some cause
    /\ Error e = "HTTP request failed: " +:+ Error cause
    /\ strings_Contains (Error e) "HTTP request failed" = true.
Proof.
  intros Hreq Hadd Hdo.
  assert (Hsend : sendRequest c r (command op) uniqueId
                  = (None, Some (fmt_Errorf_w "HTTP request failed: " cause), [EvDo req])).
  { unfold sendRequest. cbv zeta. now rewrite Hreq, Hadd, Hdo. }
  eexists. split; [| split; [exact Hsend |]].
  - rewrite perform_callPath. unfold callPath. now rewrite Hsend.
  - split; [reflexivity | split; [reflexivity |]].
    exact (Contains_prefix "HTTP request failed" (": " +:+ Error cause)).
Qed.

(** X3.  A 2xx answer whose body does not parse: the operation returns the
    error "failed to parse response" wrapping the cause, and the request path
    returns no response with it. *)
Theorem X3_unparsed_body (op : Operation) (c : DNSClient) (r : DNSRecordValue)
        (uniqueId : string) (req0 req : Request) (resp : Response)
        (body : string) (cause : error) :
  exchange c r (command op) uniqueId req0 req resp ->
  status2xx resp ->
  Body resp = inl body ->
  json_Unmarshal body = inr cause ->
  exists e,
    perform op c r uniqueId = (Some e, [EvDo req; EvReadAll; EvClose])
    /\ sendRequest c r (command op) uniqueId = (None, Some e, [EvDo req; EvReadAll; EvClose])
    /\ errors_Unwrap e = Some cause
    /\ Error e = "failed to parse response: " +:+ Error cause
    /\ strings_Contains (Error e) "failed to parse response" = true.
Proof.
  intros Hex Hst Hbody Hjson.
  pose proof (sendRequest_exchange _ _ _ _ _ _ _ Hex) as Hsend.
  rewrite (status2xx_test _ Hst), Hbody, Hjson in Hsend.
  eexists. split; [| split; [exact Hsend |]].
  - rewrite perform_callPath. unfold callPath. now rewrite Hsend.
  - split; [reflexivity | split; [reflexivity |]].
    exact (Contains_prefix "failed to parse response" (": " +:+ Error cause)).
Qed.

(** X4.  When the request cannot be created, the operation returns the
    error "failed to create request" wrapping the cause and sends nothing,
    whatever the record value: the record is not looked at, so a record with
    an empty field gets this error and not the error of its field. *)
Theorem X4_request_not_created (op : Operation) (c : DNSClient) (r : DNSRecordValue)
        (uniqueId : string) (cause : error) :
  http_NewRequest "GET" (requestURL c) = inr cause ->
  perform op c r uniqueId
  = (Some (fmt_Errorf_w "failed to create request: " cause), [])
  /\ errors_Unwrap (fmt_Errorf_w "failed to create request: " cause) = Some cause
  /\ forall f, fmt_Errorf_w "failed to create request: " cause
               <> errors_New (fieldName f +:+ " must not be empty").
Proof.
  intros Hreq. split; [| split].
  - rewrite perform_callPath. unfold callPath, sendRequest. cbv zeta. now rewrite Hreq.
  - reflexivity.
  - intros f. discriminate.
Qed.

(** X5.  [NewClient] returns a client or an error, never neither.  A client
    it returns has the key it was given, which is not empty; the HTTP client
    it was given, or one with a timeout of 15 seconds when it was given
    none; and as base URL the parse of the text it was given, or of the
    DreamHost endpoint when that text is empty. *)
Theorem X5_NewClient_result (key : string) (httpClient : option http_Client) (baseUrl : string) :
  NewClient key httpClient baseUrl <> (None, None)
  /\ forall c e,
     NewClient key httpClient baseUrl = (Some c, e) ->
     e = None /\ key <> "" /\ apiKey c = key
     /\ client c = match httpClient with
                   | Some h => h
                   | None => mkClient 15000000000 http_DefaultTransport
                   end
     /\ url_Parse (if String.eqb baseUrl "" then dreamhostBaseUrl else baseUrl)
        = inl (BaseURL c).
Proof.
  unfold NewClient.
  destruct (String.eqb_spec key "") as [Hk | Hk]; [split; [discriminate | intros c e; discriminate] |].
  destruct (url_Parse (if String.eqb baseUrl "" then dreamhostBaseUrl else baseUrl))
    as [u | err]; [| split; [discriminate | intros c e; discriminate]].
  split; [discriminate |].
  intros c e [= <- <-]. repeat split; assumption.
Qed.

(** X6.  Every request handed to the HTTP client carries the header
    [User-Agent] with the agent string of the client as its only value; its
    other headers are those of the request [http.NewRequest] made. *)
Theorem X6_user_agent (op : Operation) (c : DNSClient) (r : DNSRecordValue)
        (uniqueId : string) (req : Request) :
  In req (sent (snd (perform op c r uniqueId))) ->
  Req_Header req !! "User-Agent" = Some [agentString]
  /\ Header_Get (Req_Header req) "User-Agent" = "cert-manager-webhook-dreamhost/0.1"
  /\ exists req0,
       http_NewRequest "GET" (requestURL c) = inl req0
       /\ forall k, k <> "User-Agent" -> Req_Header req !! k = Req_Header req0 !! k.
Proof.
  rewrite perform_callPath, callPath_events, sendRequest_sent.
  destruct (http_NewRequest "GET" (requestURL c)) as [req0 | e]; [| intros []].
  destruct (addToReq r (prepareRequest c req0 (command op) uniqueId)) as [req' [e |]] eqn:Hadd;
    [intros [] |].
  intros [<- | []].
  destruct (built_Query _ _ _ _ _ _ Hadd) as [_ [_ Hhdr]].
  rewrite Hhdr, prepareRequest_params. cbn [Req_Header].
  assert (Hua : Header_Set (Req_Header req0) "User-Agent" agentString !! "User-Agent"
                = Some [agentString]) by apply lookup_insert_eq.
  split; [exact Hua |]. split.
  - unfold Header_Get. now rewrite Hua.
  - exists req0. split; [reflexivity |].
    intros k Hk. unfold Header_Set. now rewrite lookup_insert_ne.
Qed.

(** X7.  A parsed answer that does not report success and whose data field
    is not the sentinel: the operation returns the error of the request path,
    which prints the answer. *)
Theorem X7_refusal_propagated (op : Operation) (c : DNSClient) (r : DNSRecordValue)
        (uniqueId : string) (req0 req : Request) (resp : Response)
        (body : string) (apiResp : DreamhostResponse) :
  exchange c r (command op) uniqueId req0 req resp ->
  status2xx resp ->
  Body resp = inl body ->
  json_Unmarshal body = inl apiResp ->
  Result apiResp <> "success" ->
  Data apiResp <> "unique_id_already_used" ->
  exists e,
    perform op c r uniqueId = (Some e, [EvDo req; EvReadAll; EvClose])
    /\ Error e = "dreamhost API returned non-successful result: {"
                 +:+ Result apiResp +:+ " " +:+ Data apiResp +:+ " " +:+ Reason apiResp +:+ "}".
Proof.
  intros Hex Hst Hbody Hjson Hres Hdata.
  pose proof (sendRequest_exchange _ _ _ _ _ _ _ Hex) as Hsend.
  rewrite (status2xx_test _ Hst), Hbody, Hjson in Hsend.
  apply String.eqb_neq in Hres, Hdata. rewrite Hres in Hsend. simpl in Hsend.
  eexists. split.
  - rewrite perform_callPath. unfold callPath. rewrite Hsend. simpl. rewrite Hdata. reflexivity.
  - reflexivity.
Qed.

(** X8.  The operation returns no error exactly when a request was sent,
    the answer had a 2xx status and a body that parsed, and the parsed
    response reports success or carries the sentinel in its data field. *)
Theorem X8_success_iff (op : Operation) (c : DNSClient) (r : DNSRecordValue)
        (uniqueId : string) :
  fst (perform op c r uniqueId) = None
  <-> exists req0 req resp body apiResp,
        exchange c r (command op) uniqueId req0 req resp
        /\ status2xx resp
        /\ Body resp = inl body
        /\ json_Unmarshal body = inl apiResp
        /\ (Result apiResp = "success" \/ Data apiResp = "unique_id_already_used").
Proof.
  rewrite perform_callPath. unfold callPath. split.
  - pose proof (sendRequest_outcome c r (command op) uniqueId) as Hout.
    destruct (sendRequest c r (command op) uniqueId) as [[resp err] events].
    inversion Hout; subst; simpl; try discriminate.
    + destruct (String.eqb_spec (Data apiResp) "unique_id_already_used") as [Hd | Hd];
        [| discriminate].
      intros _. exists req0, req, resp0, body, apiResp. auto 10.
    + intros _. exists req0, req, resp0, body, apiResp. auto 10.
  - intros (req0 & req & resp & body & apiResp & Hex & Hst & Hbody & Hjson & Hok).
    rewrite (sendRequest_exchange _ _ _ _ _ _ _ Hex), (status2xx_test _ Hst), Hbody, Hjson.
    destruct (String.eqb_spec (Result apiResp) "success") as [Hres | Hres]; simpl;
      [reflexivity |].
    destruct Hok as [Hok | Hok]; [contradiction |]. now rewrite Hok.
Qed.

(** X9.  A call hands at most one request to the HTTP client.  When the
    client answered with a response, the call closes its body once, as its
    last step, and reads it (once) exactly when the status is 2xx; when no
    response came, nothing is read or closed. *)
Theorem X9_body_closed_once (op : Operation) (c : DNSClient) (r : DNSRecordValue)
        (uniqueId : string) :
  (length (sent (snd (perform op c r uniqueId))) <= 1)%nat
  /\ (forall req0 req resp,
      exchange c r (command op) uniqueId req0 req resp ->
      sent (snd (perform op c r uniqueId)) = [req]
      /\ closes (snd (perform op c r uniqueId)) = 1%nat
      /\ last (snd (perform op c r uniqueId)) = Some EvClose
      /\ (status2xx resp -> reads (snd (perform op c r uniqueId)) = 1%nat)
      /\ (~ status2xx resp -> reads (snd (perform op c r uniqueId)) = 0%nat))
  /\ ((forall req0 req resp, ~ exchange c r (command op) uniqueId req0 req resp) ->
      closes (snd (perform op c r uniqueId)) = 0%nat
      /\ reads (snd (perform op c r uniqueId)) = 0%nat).
Proof.
  rewrite perform_callPath, callPath_events.
  pose proof (sendRequest_outcome c r (command op) uniqueId) as Hout.
  split; [| split].
  - destruct (sendRequest c r (command op) uniqueId) as [[resp err] events].
    inversion Hout; subst; simpl; lia.
  - intros req0 req resp Hex.
    rewrite (sendRequest_exchange _ _ _ _ _ _ _ Hex).
    destruct ((StatusCode resp <? 200)%Z || (StatusCode resp >=? 300)%Z) eqn:Hst.
    + apply status_test_not_2xx in Hst. repeat split; simpl; try reflexivity.
      intros H. contradiction.
    + apply status_test_2xx in Hst.
      destruct (Body resp) as [body | e];
        [destruct (json_Unmarshal body) as [apiResp | e];
         [destruct (negb (String.eqb (Result apiResp) "success")) |] |];
        repeat split; simpl; try reflexivity; intros H; contradiction.
  - intros Hno.
    destruct (sendRequest c r (command op) uniqueId) as [[resp err] events].
    inversion Hout; subst; simpl; try (split; reflexivity);
      exfalso; eapply Hno; eassumption.
Qed.

(** The seven texts of [errorPrefixes] exclude one another: a message starts
    with at most one of them. *)
Lemma errorPrefixes_exclusive (s p p' : string) :
  In p errorPrefixes -> In p' errorPrefixes ->
  strings_HasPrefix s p = true -> strings_HasPrefix s p' = true -> p = p'.
Proof.
  intros Hp Hp' H H'. apply HasPrefix_inv in H as [t ->].
  unfold errorPrefixes in Hp, Hp'. simpl in Hp, Hp'.
  repeat (destruct Hp as [<- | Hp]; [| try contradiction]);
    repeat (destruct Hp' as [<- | Hp']; [| try contradiction]);
    try reflexivity; vm_compute in H'; discriminate H'.
Qed.

(** X10.  The query string on the wire.  For a valid record value and a
    request URL that came without a query string, the query string of the
    request sent is the pairs [cmd], [format], [key], [record], [type],
    [unique_id] (when the identifier is not empty) and [value], in this
    order, each value escaped for a query string. *)
Theorem X10_wire_query (op : Operation) (c : DNSClient) (r : DNSRecordValue)
        (uniqueId : string) (req0 : Request) :
  validRecord r ->
  http_NewRequest "GET" (requestURL c) = inl req0 ->
  RawQuery (URL req0) = "" ->
  exists req,
    sent (snd (perform op c r uniqueId)) = [req]
    /\ RawQuery (URL req) = wireQuery c r (command op) uniqueId.
Proof.
  intros Hvalid Hreq Hraw.
  pose proof (addToReq_valid r (prepareRequest c req0 (command op) uniqueId) Hvalid) as Hadd.
  eexists. split.
  - rewrite perform_callPath, callPath_events, sendRequest_sent, Hreq, Hadd. reflexivity.
  - cbn [URL]. unfold URL_set_RawQuery. cbn [RawQuery].
    rewrite prepareRequest_Query.
    assert (Hq0 : URL_Query (URL req0) = ∅) by (unfold URL_Query; now rewrite Hraw).
    rewrite Hq0, Encode_Join. unfold preparedParams, recordParams, wireQuery.
    destruct op; destruct (String.eqb uniqueId "");
      match goal with
      | |- strings_Join (map pair_enc (pairs_of ?v (sorted_keys ?v))) _ = _ =>
          let l := eval vm_compute in (pairs_of v (sorted_keys v)) in
          replace (pairs_of v (sorted_keys v)) with l by (vm_compute; reflexivity)
      end;
      cbn [map strings_Join pair_enc fst snd command];
      repeat match goal with
             | |- context [QueryEscape (String ?a ?t)] =>
                 let e := eval vm_compute in (QueryEscape (String a t)) in
                 change (QueryEscape (String a t)) with e
             end;
      rewrite ?string_app_assoc; reflexivity.
Qed.

(** X11.  Every request sent was made by [http.NewRequest] from the URL text
    of the client, as a request [req0].  Its query string reads back without
    error and holds no key without a value: it is the encoding of the values
    that [URL.Query] reads from the query string of [req0], followed by the
    parameters of the call. *)
Theorem X11_query_well_formed (op : Operation) (c : DNSClient) (r : DNSRecordValue)
        (uniqueId : string) (req : Request) :
  In req (sent (snd (perform op c r uniqueId))) ->
  snd (ParseQuery (RawQuery (URL req))) = None
  /\ values_wf (URL_Query (URL req))
  /\ exists req0,
       http_NewRequest "GET" (requestURL c) = inl req0
       /\ RawQuery (URL req)
          = Values_Encode (fold_left add_pair
                             (preparedParams c (command op) uniqueId ++ recordParams r)
                             (URL_Query (URL req0))).
Proof.
  rewrite perform_callPath, callPath_events, sendRequest_sent.
  destruct (http_NewRequest "GET" (requestURL c)) as [req0 | e]; [| intros []].
  destruct (addToReq r (prepareRequest c req0 (command op) uniqueId)) as [req' [e |]] eqn:Hadd;
    [intros [] |].
  intros [<- | []].
  pose proof (addToReq_None_valid _ _ _ Hadd) as Hvalid.
  rewrite (addToReq_valid r _ Hvalid) in Hadd. injection Hadd as <-.
  set (v := fold_left add_pair (recordParams r)
              (URL_Query (URL (prepareRequest c req0 (command op) uniqueId)))).
  assert (Hwf : values_wf v) by apply values_wf_fold_add, values_wf_Query.
  match goal with
  | |- context [RawQuery (URL ?q)] => change (RawQuery (URL q)) with (Values_Encode v)
  end.
  split; [| split].
  - now rewrite (ParseQuery_Encode _ Hwf).
  - apply values_wf_Query.
  - exists req0. split; [reflexivity |].
    unfold v. now rewrite prepareRequest_Query, fold_left_app.
Qed.

(** X12.  [addToReq] on any request: it returns an error exactly when a
    field of the record is empty, and then leaves the request as it was;
    otherwise it changes the query string only, whose values are then the
    ones the request had, followed by [record], [type] and [value]. *)
Theorem X12_addToReq (r : DNSRecordValue) (req : Request) :
  (snd (addToReq r req) = None <-> validRecord r)
  /\ (snd (addToReq r req) <> None -> fst (addToReq r req) = req)
  /\ (validRecord r ->
      sameButQuery (fst (addToReq r req)) req
      /\ URL_Query (URL (fst (addToReq r req)))
         = fold_left add_pair (recordParams r) (URL_Query (URL req))).
Proof.
  split; [| split].
  - split.
    + intros H. destruct (addToReq r req) as [req' e] eqn:Hadd. simpl in H. subst e.
      exact (addToReq_None_valid _ _ _ Hadd).
    + intros Hvalid. now rewrite (addToReq_valid r req Hvalid).
  - destruct (addToReq r req) as [req' [e |]] eqn:Hadd; simpl; [| congruence].
    intros _. now destruct (addToReq_Some_firstEmpty _ _ _ _ Hadd) as (f & _ & -> & _).
  - intros Hvalid. rewrite (addToReq_valid r req Hvalid). cbn [fst]. split.
    + repeat split.
    + cbn [URL]. apply Query_Encode, values_wf_fold_add, values_wf_Query.
Qed.

(** X13.  The kinds of error.  The message of every error an operation
    returns starts with exactly one of the seven texts of [errorPrefixes]:
    an empty field, a request that could not be created, a failed exchange,
    an unexpected status, an unreadable body, a body that does not parse, a
    refusal by the API. *)
Theorem X13_error_kinds (op : Operation) (c : DNSClient) (r : DNSRecordValue)
        (uniqueId : string) (e : error) :
  fst (perform op c r uniqueId) = Some e ->
  exists p,
    In p errorPrefixes
    /\ strings_HasPrefix (Error e) p = true
    /\ forall p', In p' errorPrefixes -> strings_HasPrefix (Error e) p' = true -> p' = p.
Proof.
  rewrite perform_callPath. unfold callPath.
  pose proof (sendRequest_outcome c r (command op) uniqueId) as Hout.
  destruct (sendRequest c r (command op) uniqueId) as [[resp err] events].
  assert (Hex : forall p, In p errorPrefixes -> strings_HasPrefix (Error e) p = true ->
                exists p0, In p0 errorPrefixes /\ strings_HasPrefix (Error e) p0 = true
                  /\ forall p', In p' errorPrefixes ->
                                strings_HasPrefix (Error e) p' = true -> p' = p0).
  { intros p Hp H. exists p. split; [exact Hp |]. split; [exact H |].
    intros p' Hp' H'. exact (errorPrefixes_exclusive _ _ _ Hp' Hp H' H). }
  inversion Hout; subst; simpl; try discriminate.
  - intros [= <-]. apply (Hex "failed to create request: "); [simpl; tauto | apply HasPrefix_app].
  - intros [= <-]. apply (Hex "DNSRecordValue."); [simpl; tauto |]. now destruct f.
  - intros [= <-]. apply (Hex "HTTP request failed: "); [simpl; tauto | apply HasPrefix_app].
  - intros [= <-]. apply (Hex "dreamhost API returned unexpected status code ");
      [simpl; tauto | apply HasPrefix_app].
  - intros [= <-]. apply (Hex "failed to read HTTP body: "); [simpl; tauto | apply HasPrefix_app].
  - intros [= <-]. apply (Hex "failed to parse response: "); [simpl; tauto | apply HasPrefix_app].
  - destruct (String.eqb (Data apiResp) "unique_id_already_used"); [discriminate |].
    intros [= <-]. apply (Hex "dreamhost API returned non-successful result: ");
      [simpl; tauto | apply HasPrefix_app].
Qed.

(** X14.  The bounds of the status.  Once the HTTP client has answered, the
    request path returns the error of an unexpected status exactly when the
    status is below 200 or is 300 or more. *)
Theorem X14_status_bounds (c : DNSClient) (r : DNSRecordValue) (cmd uniqueId : string)
        (req0 req : Request) (resp : Response) :
  exchange c r cmd uniqueId req0 req resp ->
  ((StatusCode resp < 200)%Z \/ (300 <= StatusCode resp)%Z)
  <-> exists e, snd (fst (sendRequest c r cmd uniqueId)) = Some e
                /\ strings_HasPrefix (Error e)
                     "dreamhost API returned unexpected status code " = true.
Proof.
  intros Hex. rewrite (sendRequest_exchange _ _ _ _ _ _ _ Hex).
  destruct ((StatusCode resp <? 200)%Z || (StatusCode resp >=? 300)%Z) eqn:Hst.
  - pose proof (status_test_not_2xx _ Hst) as Hn. unfold status2xx in Hn. split.
    + intros _. eexists. split; [reflexivity |]. apply HasPrefix_app.
    + intros _. lia.
  - pose proof (status_test_2xx _ Hst) as H2. unfold status2xx in H2. split; [lia |].
    intros (e & He & Hp). exfalso.
    destruct (Body resp) as [body | cause];
      [destruct (json_Unmarshal body) as [apiResp | cause];
       [destruct (negb (String.eqb (Result apiResp) "success")) |] |];
      simpl in He; try discriminate He; injection He as <-;
      vm_compute in Hp; discriminate Hp.
Qed.

End MoreProperties.

(** * The further properties on concrete exchanges *)

(** The added record of [TestCreateRecord]. *)
Lemma X1_success_witness :
  exists req,
    exchange (L := GoRef.lib) (Tests.clientFor 200 Tests.bodyAdded) Tests.recordValue
             (command OpCreate) "" Tests.request0 req (mkResponse 200 (inl Tests.bodyAdded))
    /\ perform (L := GoRef.lib) OpCreate (Tests.clientFor 200 Tests.bodyAdded)
               Tests.recordValue "" = (None, [EvDo req; EvReadAll; EvClose]).
Proof.
  assert (Hex : exchange (L := GoRef.lib) (Tests.clientFor 200 Tests.bodyAdded)
                  Tests.recordValue (command OpCreate) "" Tests.request0
                  (fst (addToReq Tests.recordValue
                          (prepareRequest (Tests.clientFor 200 Tests.bodyAdded)
                             Tests.request0 (command OpCreate) "")))
                  (mkResponse 200 (inl Tests.bodyAdded)))
    by (repeat split; vm_compute; reflexivity).
  assert (Hst : status2xx (mkResponse 200 (inl Tests.bodyAdded)))
    by (unfold status2xx; simpl; lia).
  destruct (X1_success (L := GoRef.lib) OpCreate _ _ _ _ _ _ Tests.bodyAdded
              (mkDreamhostResponse "success" "record_added" "")
              Hex Hst eq_refl ltac:(vm_compute; reflexivity) eq_refl) as [_ Hp].
  eexists. split; [exact Hex | exact Hp].
Defined.

(** The closed server of [TestCreateRecordConnectionError]. *)
Lemma X2_transport_failure_witness :
  exists req e,
    addToReq Tests.recordValue
      (prepareRequest Tests.clientClosed Tests.request0 (command OpCreate) "") = (req, None)
    /\ perform (L := GoRef.lib) OpCreate Tests.clientClosed Tests.recordValue ""
       = (Some e, [EvDo req])
    /\ Error e = "HTTP request failed: dial tcp: connect: connection refused".
Proof.
  assert (Hadd : addToReq Tests.recordValue
                   (prepareRequest Tests.clientClosed Tests.request0 (command OpCreate) "")
                 = (fst (addToReq Tests.recordValue
                           (prepareRequest Tests.clientClosed Tests.request0
                              (command OpCreate) "")), None))
    by (vm_compute; reflexivity).
  destruct (X2_transport_failure (L := GoRef.lib) OpCreate Tests.clientClosed Tests.recordValue
              "" Tests.request0 _ (errorString "dial tcp: connect: connection refused")
              ltac:(vm_compute; reflexivity) Hadd eq_refl) as (e & Hp & _ & _ & Hmsg & _).
  eexists _, e. split; [exact Hadd |]. split; [exact Hp | exact Hmsg].
Defined.

(** The body of [TestCreateRecordInvalidResponse]. *)
Lemma X3_unparsed_body_witness :
  exists req e,
    exchange (L := GoRef.lib) (Tests.clientFor 200 "invalid") Tests.recordValue
             (command OpCreate) "" Tests.request0 req (mkResponse 200 (inl "invalid"))
    /\ perform (L := GoRef.lib) OpCreate (Tests.clientFor 200 "invalid") Tests.recordValue ""
       = (Some e, [EvDo req; EvReadAll; EvClose])
    /\ strings_Contains (Error e) "failed to parse response" = true.
Proof.
  assert (Hex : exchange (L := GoRef.lib) (Tests.clientFor 200 "invalid")
                  Tests.recordValue (command OpCreate) "" Tests.request0
                  (fst (addToReq Tests.recordValue
                          (prepareRequest (Tests.clientFor 200 "invalid")
                             Tests.request0 (command OpCreate) "")))
                  (mkResponse 200 (inl "invalid")))
    by (repeat split; vm_compute; reflexivity).
  assert (Hst : status2xx (mkResponse 200 (inl "invalid")))
    by (unfold status2xx; simpl; lia).
  destruct (X3_unparsed_body (L := GoRef.lib) OpCreate _ _ _ _ _ _ "invalid" GoRef.syntaxError
              Hex Hst eq_refl eq_refl) as (e & Hp & _ & _ & _ & Hc).
  eexists _, e. split; [exact Hex |]. split; [exact Hp | exact Hc].
Defined.

(** A base URL that does not parse back, and a record without a name: the
    error is the one of the request, not the one of the name. *)
Lemma X4_request_not_created_witness :
  firstEmpty Tests.recordNoName FName
  /\ requestURL (L := GoRef.lib) MoreTests.clientBadHost = "//a%20b/"
  /\ exists cause,
       http_NewRequest (GoLibrary := GoRef.lib) "GET"
         (requestURL (L := GoRef.lib) MoreTests.clientBadHost) = inr cause
       /\ perform (L := GoRef.lib) OpCreate MoreTests.clientBadHost Tests.recordNoName ""
          = (Some (fmt_Errorf_w "failed to create request: " cause), []).
Proof.
  split; [split; [reflexivity | exact I] |].
  split; [vm_compute; reflexivity |].
  eexists. split; [vm_compute; reflexivity |].
  apply (X4_request_not_created (L := GoRef.lib)). vm_compute. reflexivity.
Defined.

(** The client of [TestNewClientWithMinimalArgs]. *)
Lemma X5_NewClient_result_witness :
  NewClient (L := GoRef.lib) "test123" None "" = (Some Tests.defaultClient, None)
  /\ apiKey Tests.defaultClient = "test123"
  /\ Timeout (client Tests.defaultClient) = 15000000000%Z
  /\ GoRef.Parse "https://api.dreamhost.com/" = inl (BaseURL Tests.defaultClient).
Proof.
  assert (H : NewClient (L := GoRef.lib) "test123" None "" = (Some Tests.defaultClient, None))
    by (vm_compute; reflexivity).
  destruct (X5_NewClient_result (L := GoRef.lib) "test123" None "") as [_ Hc].
  destruct (Hc _ _ H) as (_ & _ & Hk & Hcl & Hu).
  split; [exact H |]. split; [exact Hk |]. split; [now rewrite Hcl | exact Hu].
Defined.

(** The request of [TestCreateRecord] carries the agent string. *)
Lemma X6_user_agent_witness :
  exists req,
    sent (snd (perform (L := GoRef.lib) OpCreate (Tests.clientFor 200 Tests.bodyAdded)
                       Tests.recordValue "")) = [req]
    /\ Header_Get (Req_Header req) "User-Agent" = "cert-manager-webhook-dreamhost/0.1".
Proof.
  eexists. split; [vm_compute; reflexivity |].
  apply (X6_user_agent (L := GoRef.lib) OpCreate (Tests.clientFor 200 Tests.bodyAdded)
           Tests.recordValue "").
  vm_compute. left. reflexivity.
Defined.

(** The refusal of [TestCreateRecordErrorResponse]. *)
Lemma X7_refusal_propagated_witness :
  exists req e,
    exchange (L := GoRef.lib) (Tests.clientFor 200 Tests.bodyExists) Tests.recordValue
             (command OpCreate) "" Tests.request0 req (mkResponse 200 (inl Tests.bodyExists))
    /\ perform (L := GoRef.lib) OpCreate (Tests.clientFor 200 Tests.bodyExists)
               Tests.recordValue "" = (Some e, [EvDo req; EvReadAll; EvClose])
    /\ Error e
       = "dreamhost API returned non-successful result: {error record_already_exists_remove_first }".
Proof.
  assert (Hex : exchange (L := GoRef.lib) (Tests.clientFor 200 Tests.bodyExists)
                  Tests.recordValue (command OpCreate) "" Tests.request0
                  (fst (addToReq Tests.recordValue
                          (prepareRequest (Tests.clientFor 200 Tests.bodyExists)
                             Tests.request0 (command OpCreate) "")))
                  (mkResponse 200 (inl Tests.bodyExists)))
    by (repeat split; vm_compute; reflexivity).
  assert (Hst : status2xx (mkResponse 200 (inl Tests.bodyExists)))
    by (unfold status2xx; simpl; lia).
  destruct (X7_refusal_propagated (L := GoRef.lib) OpCreate _ _ _ _ _ _ Tests.bodyExists
              (mkDreamhostResponse "error" "record_already_exists_remove_first" "")
              Hex Hst eq_refl ltac:(vm_compute; reflexivity)
              ltac:(discriminate) ltac:(discriminate)) as (e & Hp & Hmsg).
  eexists _, e. split; [exact Hex |]. split; [exact Hp | exact Hmsg].
Defined.

(** The 500 answer reports an error, so one of the conditions of success
    fails: here the status. *)
Lemma X8_success_iff_witness :
  fst (perform (L := GoRef.lib) OpDelete (Tests.clientFor 200 Tests.bodyRemoved)
               Tests.recordValue "") = None
  /\ fst (perform (L := GoRef.lib) OpDelete (Tests.clientFor 500 Tests.bodyRemoved)
                  Tests.recordValue "") <> None.
Proof.
  split.
  - apply (X8_success_iff (L := GoRef.lib)).
    exists Tests.request0,
      (fst (addToReq Tests.recordValue
              (prepareRequest (Tests.clientFor 200 Tests.bodyRemoved)
                 Tests.request0 (command OpDelete) ""))),
      (mkResponse 200 (inl Tests.bodyRemoved)), Tests.bodyRemoved,
      (mkDreamhostResponse "success" "record_removed" "").
    split; [repeat split; vm_compute; reflexivity |].
    split; [unfold status2xx; simpl; lia |].
    split; [reflexivity |]. split; [vm_compute; reflexivity | left; reflexivity].
  - intros H. apply (X8_success_iff (L := GoRef.lib)) in H.
    destruct H as (req0 & req & resp & body & apiResp & (_ & Hadd & Hdo) & [_ Hst] & _).
    vm_compute in Hdo. injection Hdo as <-. simpl in Hst. lia.
Defined.

(** The 500 answer: one request, the body closed and not read. *)
Lemma X9_body_closed_once_witness :
  exists req,
    exchange (L := GoRef.lib) (Tests.clientFor 500 Tests.bodyAdded) Tests.recordValue
             (command OpCreate) "" Tests.request0 req (mkResponse 500 (inl Tests.bodyAdded))
    /\ closes (snd (perform (L := GoRef.lib) OpCreate (Tests.clientFor 500 Tests.bodyAdded)
                            Tests.recordValue "")) = 1%nat
    /\ reads (snd (perform (L := GoRef.lib) OpCreate (Tests.clientFor 500 Tests.bodyAdded)
                           Tests.recordValue "")) = 0%nat.
Proof.
  assert (Hex : exchange (L := GoRef.lib) (Tests.clientFor 500 Tests.bodyAdded)
                  Tests.recordValue (command OpCreate) "" Tests.request0
                  (fst (addToReq Tests.recordValue
                          (prepareRequest (Tests.clientFor 500 Tests.bodyAdded)
                             Tests.request0 (command OpCreate) "")))
                  (mkResponse 500 (inl Tests.bodyAdded)))
    by (repeat split; vm_compute; reflexivity).
  destruct (X9_body_closed_once (L := GoRef.lib) OpCreate (Tests.clientFor 500 Tests.bodyAdded)
              Tests.recordValue "") as (_ & H & _).
  destruct (H _ _ _ Hex) as (_ & Hc & _ & _ & Hr).
  eexists. split; [exact Hex |]. split; [exact Hc |].
  apply Hr. unfold status2xx. simpl. lia.
Defined.

(** A record value with a space, an ampersand, an equals sign, a slash and a
    plus sign, and an identifier with a colon. *)
Lemma X10_wire_query_witness :
  validRecord MoreTests.recordSpecial
  /\ exists req,
       sent (snd (perform (L := GoRef.lib) OpCreate (Tests.clientFor 200 Tests.bodyAdded)
                          MoreTests.recordSpecial "id:1")) = [req]
       /\ RawQuery (URL req)
          = "cmd=dns-add_record&format=json&key=apikey123&record=_acme-challenge.example.com&type=TXT&unique_id=id%3A1&value=a+b%26c%3Dd%2Fe%2Bf".
Proof.
  assert (Hv : validRecord MoreTests.recordSpecial) by (repeat split; discriminate).
  split; [exact Hv |].
  destruct (X10_wire_query (L := GoRef.lib) OpCreate (Tests.clientFor 200 Tests.bodyAdded)
              MoreTests.recordSpecial "id:1" Tests.request0 Hv
              ltac:(vm_compute; reflexivity) eq_refl) as (req & Hsent & Hraw).
  exists req. split; [exact Hsent |].
  rewrite Hraw. vm_compute. reflexivity.
Defined.

(** A client whose URL text has the query string [a=%zz&b=1/]: the request
    that [http.NewRequest] makes has a pair that does not unescape, and the
    request sent has the other pair and the parameters of the call. *)
Lemma X11_query_well_formed_witness :
  exists req0 req,
    http_NewRequest (GoLibrary := GoRef.lib) "GET"
      (requestURL (L := GoRef.lib) MoreTests.clientBadQuery) = inl req0
    /\ RawQuery (URL req0) = "a=%zz&b=1/"
    /\ snd (ParseQuery (RawQuery (URL req0))) <> None
    /\ sent (snd (perform (L := GoRef.lib) OpCreate MoreTests.clientBadQuery
                          Tests.recordValue "")) = [req]
    /\ RawQuery (URL req)
       = "b=1%2F&cmd=dns-add_record&format=json&key=apikey123&record=example.com&type=TXT&value=testValue"
    /\ snd (ParseQuery (RawQuery (URL req))) = None.
Proof.
  eexists _, _. split; [vm_compute; reflexivity |].
  split; [vm_compute; reflexivity |].
  split; [vm_compute; discriminate |].
  split; [vm_compute; reflexivity |]. split; [vm_compute; reflexivity |].
  apply (X11_query_well_formed (L := GoRef.lib) OpCreate MoreTests.clientBadQuery
           Tests.recordValue "").
  vm_compute. left. reflexivity.
Defined.

(** A record without a name leaves the request alone; a full record adds its
    three parameters. *)
Lemma X12_addToReq_witness :
  addToReq Tests.recordNoName Tests.request0
  = (Tests.request0, Some (errorString "DNSRecordValue.Name must not be empty"))
  /\ fst (addToReq Tests.recordNoName Tests.request0) = Tests.request0
  /\ RawQuery (URL (fst (addToReq Tests.recordValue Tests.request0)))
     = "record=example.com&type=TXT&value=testValue"
  /\ URL_Query (URL (fst (addToReq Tests.recordValue Tests.request0)))
     = fold_left add_pair (recordParams Tests.recordValue) (URL_Query (URL Tests.request0)).
Proof.
  destruct (X12_addToReq Tests.recordNoName Tests.request0) as (_ & Hsame & _).
  destruct (X12_addToReq Tests.recordValue Tests.request0) as (_ & _ & Hq).
  split; [vm_compute; reflexivity |].
  split; [apply Hsame; vm_compute; discriminate |].
  split; [vm_compute; reflexivity |].
  apply Hq. repeat split; discriminate.
Defined.

(** The error of the 500 answer is of the kind of the unexpected status. *)
Lemma X13_error_kinds_witness :
  exists e p,
    fst (perform (L := GoRef.lib) OpCreate (Tests.clientFor 500 Tests.bodyAdded)
                 Tests.recordValue "") = Some e
    /\ In p errorPrefixes
    /\ strings_HasPrefix (Error e) p = true
    /\ strings_HasPrefix (Error e) "dreamhost API returned unexpected status code " = true.
Proof.
  assert (H : fst (perform (L := GoRef.lib) OpCreate (Tests.clientFor 500 Tests.bodyAdded)
                     Tests.recordValue "")
              = Some (errorString "dreamhost API returned unexpected status code 500"))
    by (vm_compute; reflexivity).
  destruct (X13_error_kinds (L := GoRef.lib) OpCreate (Tests.clientFor 500 Tests.bodyAdded)
              Tests.recordValue "" _ H) as (p & Hin & Hp & _).
  eexists _, p. split; [exact H |]. split; [exact Hin |]. split; [exact Hp |].
  vm_compute. reflexivity.
Defined.

(** The last accepted status and the first refused one. *)
Lemma X14_status_bounds_witness :
  (exists e,
     snd (fst (sendRequest (L := GoRef.lib) (Tests.clientFor 300 Tests.bodyAdded)
                           Tests.recordValue "dns-add_record" "")) = Some e
     /\ strings_HasPrefix (Error e) "dreamhost API returned unexpected status code " = true)
  /\ ~ (exists e,
          snd (fst (sendRequest (L := GoRef.lib) (Tests.clientFor 299 Tests.bodyAdded)
                                Tests.recordValue "dns-add_record" "")) = Some e
          /\ strings_HasPrefix (Error e) "dreamhost API returned unexpected status code " = true).
Proof.
  split.
  - apply (X14_status_bounds (L := GoRef.lib) (Tests.clientFor 300 Tests.bodyAdded)
             Tests.recordValue "dns-add_record" "" Tests.request0
             (fst (addToReq Tests.recordValue
                     (prepareRequest (Tests.clientFor 300 Tests.bodyAdded)
                        Tests.request0 "dns-add_record" "")))
             (mkResponse 300 (inl Tests.bodyAdded))).
    + repeat split; vm_compute; reflexivity.
    + right. simpl. lia.
  - intros H.
    apply (X14_status_bounds (L := GoRef.lib) (Tests.clientFor 299 Tests.bodyAdded)
             Tests.recordValue "dns-add_record" "" Tests.request0
             (fst (addToReq Tests.recordValue
                     (prepareRequest (Tests.clientFor 299 Tests.bodyAdded)
                        Tests.request0 "dns-add_record" "")))
             (mkResponse 299 (inl Tests.bodyAdded))) in H.
    + simpl in H. lia.
    + repeat split; vm_compute; reflexivity.
Defined.
